(** * AudioData: the time-addressed sample buffer of violin-CV

    A shallow embedding of [app/modules/audio/AudioData.py] and of the
    numpy and Python primitives it calls, followed by the properties of the
    buffer that the specification states.

    Conventions of the embedding:
    - a Python [int] is a [Z]; a Python [float] is an IEEE-754 binary64
      value, carried as a [spec_float] with the operations of [SpecFloat]
      at precision 53 and maximal exponent 1024;
    - a [float32] sample is carried as its 32-bit pattern: the buffer only
      stores and copies samples, it never computes on them;
    - numpy arrays are mutable objects: they live in a heap, and an
      attribute or a slice holds a reference into it;
    - a method is a function from the state before the call to the state
      after it and either a value or the exception raised. *)

From Stdlib Require Import Strings.String.
From Stdlib Require Import ZArith Lia Bool.
From Stdlib Require Import Floats.SpecFloat.
From stdpp Require Import base list.

#[local] Open Scope Z_scope.

(** ** Exceptions and results *)

Inductive exn : Type :=
  | AttributeError   (* an attribute that was never assigned is read *)
  | ValueError       (* int(nan), a negative dimension, shapes that do not broadcast *)
  | OverflowError    (* int(inf), an int too large for a float *)
  | RuntimeError.    (* raised by the external audio loader *)

Inductive result (A : Type) : Type :=
  | Ok (a : A)
  | Raise (e : exn).
Arguments Ok {A} a.
Arguments Raise {A} e.

Definition rbind {A B} (r : result A) (k : A -> result B) : result B :=
  match r with
  | Ok a => k a
  | Raise e => Raise e
  end.

(** ** Python floats *)

Module Py.

Definition float := spec_float.

Definition fzero : float := S754_zero false.
Definition fmul : float -> float -> float := SFmul 53 1024.
Definition fadd : float -> float -> float := SFadd 53 1024.
Definition fdiv : float -> float -> float := SFdiv 53 1024.
Definition fleb : float -> float -> bool := SFleb.

(** [float(z)], as done implicitly when a float meets an int in an
    arithmetic operation: rounded to nearest even, [OverflowError] when
    the int is out of the range of a double. *)
Definition float_of_int (z : Z) : result float :=
  match binary_normalize 53 1024 z 0 false with
  | S754_infinity _ => Raise OverflowError
  | f => Ok f
  end.

(** [int(x)]: truncation toward zero. *)
Definition int_of_float (x : float) : result Z :=
  match x with
  | S754_nan => Raise ValueError
  | S754_infinity _ => Raise OverflowError
  | S754_zero _ => Ok 0
  | S754_finite s m e => Ok (cond_Zopp s (Z.shiftl (Zpos m) e))
  end.

(** [x * n] for a float [x] and an int [n]. *)
Definition fmul_int (x : float) (n : Z) : result float :=
  rbind (float_of_int n) (fun r => Ok (fmul x r)).

(** The double written [n/d] in decimal notation, and the true division
    [n / d] of two ints (both are the correctly rounded quotient as long
    as [n] and [d] are below 2^53). *)
Definition fdiv_int (n d : Z) : float :=
  fdiv (binary_normalize 53 1024 n 0 false) (binary_normalize 53 1024 d 0 false).

Definition len {A} (l : list A) : Z := Z.of_nat (length l).

(** The floor of the value of a finite float, [m * 2^e] with its sign
    ([Z.div] rounds toward minus infinity). *)
Definition floor (x : float) : option Z :=
  match x with
  | S754_zero _ => Some 0
  | S754_finite s m e =>
      Some (if e <? 0 then cond_Zopp s (Zpos m) / 2 ^ (- e)
            else cond_Zopp s (Zpos m) * 2 ^ e)
  | _ => None
  end.

(** [x] is not negative: a zero of either sign, a positive number or
    [+inf]; [nan] is let through, as [int] rejects it anyway. *)
Definition not_negative (x : float) : Prop :=
  match x with
  | S754_zero _ | S754_nan => True
  | S754_infinity s | S754_finite s _ _ => s = false
  end.

End Py.

(** ** numpy arrays of float32 *)

Module np.

Import Py.

(** A sample is the bit pattern of a binary32 value. *)
Definition float32 := Z.
Definition f32_zero : float32 := 0.               (* 0.0 *)
Definition f32_one : float32 := 1065353216.       (* 0x3F800000, 1.0 *)
Definition f32_two : float32 := 1073741824.       (* 0x40000000, 2.0 *)

(** [np.zeros(n, dtype=np.float32)]. *)
Definition zeros (n : Z) : result (list float32) :=
  if n <? 0 then Raise ValueError
  else Ok (replicate (Z.to_nat n) f32_zero).

(** The first [n] elements of the endless repetition of [a]. *)
Definition tile (a : list float32) (n : nat) : list float32 :=
  take n (mjoin (replicate n a)).

(** [np.resize(a, new_size)] (the function, not the method of ndarray):
    a new array; zeros when [a] or the result is empty, and otherwise
    repeated copies of [a] cut at [new_size]. *)
Definition resize (a : list float32) (new_size : Z) : result (list float32) :=
  if new_size <? 0 then Raise ValueError
  else if (len a =? 0) || (new_size =? 0) then zeros new_size
  else Ok (tile a (Z.to_nat new_size)).

(** How a slice bound is adjusted to an array of [length] elements:
    a negative bound counts from the end, and the result is clipped
    into [0, length]. *)
Definition adjust (length i : Z) : Z :=
  if i <? 0 then Z.max 0 (i + length) else Z.min i length.

(** The positions [lo, lo + n) selected by [a[start:stop]]. *)
Definition slice_lo (length start : Z) : nat := Z.to_nat (adjust length start).
Definition slice_len (length start stop : Z) : nat :=
  Z.to_nat (adjust length stop - adjust length start).

(** [a[start:stop] = v] for a float32 array [v]: [v] must have the shape
    of the slice or broadcast to it, which a one-element [v] does.  Gives
    the new contents of [a]; numpy reads [v] in full before it writes, so
    [v] is taken by value. *)
Definition setitem_slice (a : list float32) (start stop : Z) (v : list float32)
  : result (list float32) :=
  let lo := slice_lo (len a) start in
  let n := slice_len (len a) start stop in
  if Nat.eqb (length v) n then Ok (take lo a ++ v ++ drop (lo + n) a)
  else match v with
       | [x] => Ok (take lo a ++ replicate n x ++ drop (lo + n) a)
       | _ => Raise ValueError
       end.

End np.

(** ** The heap of arrays, and views into it *)

Abbreviation loc := nat (only parsing).
Abbreviation heap := (list (list np.float32)) (only parsing).

(** The contents of the array at [l]. References are only created by
    allocation, so the default is never reached from a method. *)
Definition deref (h : heap) (l : loc) : list np.float32 := default [] (h !! l).

(** What basic slicing [a[start:stop]] returns: no new array, but a window
    on the array it was taken from. *)
Record view : Type := View { base : loc; offset : nat; size : nat }.

Definition view_get (h : heap) (v : view) : list np.float32 :=
  take (size v) (drop (offset v) (deref h (base v))).

(** [v[i] = x] for a caller holding the view [v]; an index outside the
    view raises [IndexError] and assigns nothing. *)
Definition view_setitem (h : heap) (v : view) (i : nat) (x : np.float32) : heap :=
  if (i <? size v)%nat
  then <[base v := <[(offset v + i)%nat := x]> (deref h (base v))]> h
  else h.

(** ** The object and its methods *)

(** The attributes of an [AudioData] object that the methods use.
    [data] is [None] as long as the attribute has not been assigned.
    The attribute [lock] is a [threading.Lock]; in a sequential run
    [with self.lock:] acquires it, runs its body and releases it, also
    when the body raises, so it does not appear in the state. *)
Record AudioData : Type := Self { capacity : Z; data : option loc }.

Record state : Type := State { mem : heap; self : AudioData }.

(** A method body: the state after it, and a value or an exception.
    The state is kept when an exception is raised: what was assigned
    before the [raise] stays assigned. *)
Definition M (A : Type) : Type := state -> state * result A.

Definition ret {A} (a : A) : M A := fun s => (s, Ok a).
Definition bind {A B} (m : M A) (k : A -> M B) : M B :=
  fun s => match m s with
           | (s', Ok a) => k a s'
           | (s', Raise e) => (s', Raise e)
           end.
Definition lift {A} (r : result A) : M A := fun s => (s, r).

Notation "'let*' x ':=' m 'in' k" := (bind m (fun x => k))
  (at level 10, x name, m at level 100, k at level 200).
Notation "'do' m 'then' k" := (bind m (fun _ => k))
  (at level 10, m at level 100, k at level 200).

Definition get_capacity : M Z := fun s => (s, Ok (capacity (self s))).
Definition set_capacity (c : Z) : M unit :=
  fun s => (State (mem s) (Self c (data (self s))), Ok tt).
Definition get_data : M loc :=
  fun s => match data (self s) with
           | Some l => (s, Ok l)
           | None => (s, Raise AttributeError)
           end.
Definition set_data (l : loc) : M unit :=
  fun s => (State (mem s) (Self (capacity (self s)) (Some l)), Ok tt).

(** A new array object holding [a]. *)
Definition alloc (a : list np.float32) : M loc :=
  fun s => (State (mem s ++ [a]) (self s), Ok (length (mem s))).
Definition load (l : loc) : M (list np.float32) :=
  fun s => (s, Ok (deref (mem s) l)).
(** Writing into the array at [l], in place. *)
Definition store (l : loc) (a : list np.float32) : M unit :=
  fun s => (State (<[l := a]> (mem s)) (self s), Ok tt).

Section AudioData.

(** [AppConfig.SAMPLE_RATE], the int that [app/config.py] sets for the
    whole application; the methods are given for any rate. *)
Variable SAMPLE_RATE : Z.

Definition DEFAULT_LENGTH : Z := 60.

(** [int(t * AppConfig.SAMPLE_RATE)] *)
Definition to_index (t : Py.float) : result Z :=
  rbind (Py.fmul_int t SAMPLE_RATE) Py.int_of_float.

(** [load_data]. The essentia loader is external: [loader] is what
    [es.MonoLoader(filename=audio_filepath, ...)()] gives for the file,
    the decoded mono samples in a new array, or the exception it
    raises. *)
Definition load_data (loader : result (list np.float32)) : M unit :=
  let* audio_data := lift loader in
  let* l := alloc audio_data in
  (* self.data = audio_data *)
  do set_data l then
  (* self.capacity = len(audio_data) *)
  set_capacity (Py.len audio_data).

(** [__init__]. [MidiData] is [None] or the value of
    [MidiData.get_length()], the only thing the constructor asks of that
    object; [audio_filepath] is [None] or what the loader gives for the
    path. The new object starts in the heap [h] with no attribute set,
    which is written here as capacity 0: every path assigns [capacity]
    before anything reads it. *)
Definition __init__ (MidiData : option Py.float)
    (audio_filepath : option (result (list np.float32))) : M unit :=
  do match MidiData with
  | Some length =>
      (* self.capacity = int(self._MidiData.get_length() * SAMPLE_RATE) *)
      let* c := lift (to_index length) in
      do set_capacity c then
      (* self.data = np.zeros(self.capacity, dtype=np.float32) *)
      let* c := get_capacity in
      let* z := lift (np.zeros c) in
      let* l := alloc z in
      set_data l
  | None =>
      (* self.capacity = int(DEFAULT_LENGTH * SAMPLE_RATE), an int already;
         self.data is not assigned on this path *)
      set_capacity (DEFAULT_LENGTH * SAMPLE_RATE)
  end then
  match audio_filepath with
  | Some loader => load_data loader
  | None => ret tt
  end.

(** [AudioData(MidiData, audio_filepath)] evaluated in the heap [h]. *)
Definition new (h : heap) (MidiData : option Py.float)
    (audio_filepath : option (result (list np.float32))) : state * result unit :=
  __init__ MidiData audio_filepath (State h (Self 0 None)).

(** [write_data] *)
Definition write_data (buffer : list np.float32) (start_time : Py.float) : M unit :=
  let* start_index := lift (to_index start_time) in
  let end_index := start_index + Py.len buffer in
  let* c := get_capacity in
  do (if end_index >? c then
     (* self.capacity *= 2 *)
     let* c := get_capacity in
     do set_capacity (c * 2) then
     (* self.data = np.resize(self.data, self.capacity) *)
     let* d := get_data in
     let* a := load d in
     let* c := get_capacity in
     let* a' := lift (np.resize a c) in
     let* l := alloc a' in
     set_data l
   else ret tt) then
  (* self.data[start_index:end_index] = buffer *)
  let* d := get_data in
  let* a := load d in
  let* a' := lift (np.setitem_slice a start_index end_index buffer) in
  store d a'.

(** [read_data] *)
Definition read_data (start_time end_time : Py.float) : M view :=
  let* start_index := lift (to_index start_time) in
  let* end_index := lift (to_index end_time) in
  (* return self.data[start_index:end_index] *)
  let* d := get_data in
  let* a := load d in
  ret (View d (np.slice_lo (Py.len a) start_index)
              (np.slice_len (Py.len a) start_index end_index)).

End AudioData.

(** ** What a caller can observe of a buffer *)

(** The samples of the buffer: the contents of the array [self.data]
    refers to, if the attribute is set. *)
Definition samples (s : state) : option (list np.float32) :=
  match data (self s) with
  | Some l => mem s !! l
  | None => None
  end.

(** The invariant of the data model: there is a sample storage, and its
    length is [capacity]. *)
Definition storage_ok (s : state) : bool :=
  match samples s with
  | Some a => Py.len a =? capacity (self s)
  | None => false
  end.

(** The buffer after a call, and the outcome of the call. *)
Definition after {A} (r : state * result A) : state := fst r.
Definition outcome {A} (r : state * result A) : result A := snd r.

(** ** The properties of the specification, as it states them *)

(** Writing [b] at [t] and reading back the window
    [t, t + len(b)/sample_rate) gives [b]. *)
Definition round_trip (SAMPLE_RATE : Z) (s : state) (b : list np.float32)
    (t : Py.float) : Prop :=
  exists s1 v,
    write_data SAMPLE_RATE b t s = (s1, Ok tt) /\
    outcome (read_data SAMPLE_RATE t
               (Py.fadd t (Py.fdiv_int (Py.len b) SAMPLE_RATE)) s1) = Ok v /\
    view_get (mem s1) v = b.

(** A read of a window [0 <= ts <= te] returns, it does not raise. *)
Definition read_returns (SAMPLE_RATE : Z) (s : state) (ts te : Py.float) : Prop :=
  Py.fleb Py.fzero ts = true -> Py.fleb ts te = true ->
  exists v, outcome (read_data SAMPLE_RATE ts te s) = Ok v.



(** What a read returned is a copy: a later write does not change it,
    and an assignment into it does not change the buffer. *)
Definition read_is_copy (SAMPLE_RATE : Z) (s : state) (ts te : Py.float) : Prop :=
  forall v, read_data SAMPLE_RATE ts te s = (s, Ok v) ->
    (forall b t, view_get (mem (after (write_data SAMPLE_RATE b t s))) v
                 = view_get (mem s) v) /\
    (forall i x, samples (State (view_setitem (mem s) v i x) (self s)) = samples s).


(** What a read returns in the code: a window [v] on the storage [a]
    of the buffer [s].  It shows the samples of its range; a later write
    that stays within the capacity is seen through it; a later write
    that grows the buffer leaves it on the old array; and an assignment
    into it is an assignment into the buffer. *)
Definition is_live_view (SAMPLE_RATE : Z) (s : state) (a : list np.float32)
    (v : view) : Prop :=
  data (self s) = Some (base v) /\
  view_get (mem s) v = take (size v) (drop (offset v) a) /\
  (forall b t i s2,
     to_index SAMPLE_RATE t = Ok i -> i + Py.len b <= capacity (self s) ->
     write_data SAMPLE_RATE b t s = (s2, Ok tt) ->
     exists a2, samples s2 = Some a2 /\
                view_get (mem s2) v = take (size v) (drop (offset v) a2)) /\
  (forall b t i s2 r,
     to_index SAMPLE_RATE t = Ok i -> capacity (self s) < i + Py.len b ->
     write_data SAMPLE_RATE b t s = (s2, r) ->
     view_get (mem s2) v = view_get (mem s) v) /\
  (forall k x, (k < size v)%nat ->
     samples (State (view_setitem (mem s) v k x) (self s))
     = Some (<[(offset v + k)%nat := x]> a)).

(** ** The scenario of the specification, at sample rate 100 *)

Module Scenario.
Import Py np.

Definition SAMPLE_RATE : Z := 100.

(** Step 1: a buffer for an expected duration of 1.0 s. *)
Definition buf1 : state := after (new SAMPLE_RATE [] (Some (fdiv_int 1 1)) None).
(** Step 2: [write([1.0, 1.0, 1.0], 0.5)]. *)
Definition buf2 : state :=
  after (write_data SAMPLE_RATE (replicate 3 f32_one) (fdiv_int 5 10) buf1).
(** Step 4: [write([2.0]*20, 0.95)], which grows the buffer. *)
Definition buf4 : state :=
  after (write_data SAMPLE_RATE (replicate 20 f32_two) (fdiv_int 95 100) buf2).

(** [AudioData()], as the record tab constructs it before it loads the
    user's audio file. *)
Definition buf_default : state := after (new SAMPLE_RATE [] None None).

End Scenario.

(** ** Calls in sequence *)

(** A call made on a buffer by one of its users.  A user that catches the
    exception of a call goes on with the buffer as the call left it. *)
Inductive call : Type :=
  | Write (buffer : list np.float32) (start_time : Py.float)
  | Read (start_time end_time : Py.float)
  | Load (loader : result (list np.float32)).

Definition is_load (c : call) : bool :=
  match c with Load _ => true | _ => false end.

Definition exec (SAMPLE_RATE : Z) (s : state) (c : call) : state :=
  match c with
  | Write b t => after (write_data SAMPLE_RATE b t s)
  | Read ts te => after (read_data SAMPLE_RATE ts te s)
  | Load r => after (load_data r s)
  end.

Definition run (SAMPLE_RATE : Z) (cs : list call) (s : state) : state :=
  foldl (exec SAMPLE_RATE) s cs.

(** ** The record tab *)

(** [app/ui/tabs/RecordTab.py]: the part of the tab that owns the buffer
    and the playback controls.  The slider, the players and the plot are
    objects of other modules: a call to one of them is recorded, in
    order, and what the tab asks of them ([get_current_time()],
    [slider.maximum()]) is an argument of the handler. *)
Module RecordTab.

(** [init_user_audio], as far as the buffer goes:
    [self._AudioData = AudioData()] and then
    [self._AudioData.load_data(audio_filepath)], in the heap [h]. *)
Definition init_user_audio (SAMPLE_RATE : Z) (h : list (list np.float32))
    (loader : result (list np.float32)) : state * result unit :=
  match new SAMPLE_RATE h None None with
  | (s, Ok _) => load_data loader s
  | (s, Raise e) => (s, Raise e)
  end.

Inductive command : Type :=
  | Slider_start_timer
  | Slider_stop_timer
  | MidiPlayer_play (start_time : Py.float)
  | MidiPlayer_pause
  | AudioPlayer_play (start_time : Py.float)
  | AudioPlayer_pause
  | PitchPlot_move_plot (current_time : Py.float)
  | print_MidiPlayer.

(** The attributes the handlers read and write, the text of the two
    buttons, and the calls made so far, oldest first. *)
Record tab : Type := Tab {
  is_midi_playing : bool;
  is_user_playing : bool;
  midi_play_button : string;
  user_play_button : string;
  calls : list command
}.

(** The tab once [__init__] has run: nothing plays, and [init_buttons]
    has labelled the buttons. *)
Definition initial : tab :=
  Tab false false "Play MIDI" "Play Recorded Audio" [].

(** [toggle_midi]; [current_time] is what
    [self._Slider.get_current_time()] returns. *)
Definition toggle_midi (current_time : Py.float) (t : tab) : tab :=
  if is_midi_playing t then
    (* stop_timer(); is_midi_playing = False; setText; _MidiPlayer.pause() *)
    Tab false (is_user_playing t) "Play MIDI" (user_play_button t)
        (calls t ++ [Slider_stop_timer; MidiPlayer_pause])
  else
    (* start_timer(); is_midi_playing = True; setText; print;
       _MidiPlayer.play(start_time=start_time) *)
    Tab true (is_user_playing t) "Pause MIDI" (user_play_button t)
        (calls t ++ [Slider_start_timer; print_MidiPlayer;
                     MidiPlayer_play current_time]).

(** [toggle_user_playback] *)
Definition toggle_user_playback (current_time : Py.float) (t : tab) : tab :=
  if is_user_playing t then
    Tab (is_midi_playing t) false (midi_play_button t) "Play Recorded Audio"
        (calls t ++ [Slider_stop_timer; AudioPlayer_pause])
  else
    Tab (is_midi_playing t) true (midi_play_button t) "Pause Recorded Audio"
        (calls t ++ [Slider_start_timer; AudioPlayer_play current_time]).

(** [handle_slider_change(value)]; [maximum] is what
    [self._Slider.slider.maximum()] returns. *)
Definition handle_slider_change (value maximum : Z) (current_time : Py.float)
    (t : tab) : tab :=
  let moved := calls t ++ [PitchPlot_move_plot current_time] in
  if value =? maximum then
    Tab false false "Play MIDI" "Play Recorded Audio"
        (moved ++ [Slider_stop_timer; MidiPlayer_pause; AudioPlayer_pause])
  else
    Tab (is_midi_playing t) (is_user_playing t)
        (midi_play_button t) (user_play_button t) moved.

(** What the user or the slider does to the tab. *)
Inductive ui_event : Type :=
  | Click_midi (current_time : Py.float)
  | Click_user (current_time : Py.float)
  | Slider_changed (value maximum : Z) (current_time : Py.float).

Definition handle (t : tab) (e : ui_event) : tab :=
  match e with
  | Click_midi now => toggle_midi now t
  | Click_user now => toggle_user_playback now t
  | Slider_changed value maximum now => handle_slider_change value maximum now t
  end.

(** Each button shows what a click on it will do. *)
Definition labels_agree (t : tab) : Prop :=
  midi_play_button t
  = (if is_midi_playing t then "Pause MIDI" else "Play MIDI")%string /\
  user_play_button t
  = (if is_user_playing t then "Pause Recorded Audio"
     else "Play Recorded Audio")%string.

(** Whether the last thing the MIDI player, or the audio player, was
    told is to play; [false] when it was told nothing yet. *)
Fixpoint midi_told_to_play (cs : list command) (told : bool) : bool :=
  match cs with
  | [] => told
  | MidiPlayer_play _ :: cs => midi_told_to_play cs true
  | MidiPlayer_pause :: cs => midi_told_to_play cs false
  | _ :: cs => midi_told_to_play cs told
  end.

Fixpoint audio_told_to_play (cs : list command) (told : bool) : bool :=
  match cs with
  | [] => told
  | AudioPlayer_play _ :: cs => audio_told_to_play cs true
  | AudioPlayer_pause :: cs => audio_told_to_play cs false
  | _ :: cs => audio_told_to_play cs told
  end.

End RecordTab.

(** * Properties *)

(** ** Floats: the sign of a product, and of its integer part *)

Module PyFacts.
Import Py.

Lemma binary_round_aux_not_negative prec emax mx ex lx :
  not_negative (binary_round_aux prec emax false mx ex lx).
Proof.
  unfold binary_round_aux.
  destruct (shr_fexp prec emax mx ex lx) as [mrs' e'].
  destruct (shr_fexp prec emax _ e' loc_Exact) as [mrs'' e''].
  destruct (shr_m mrs''); simpl; trivial.
  destruct (Z.leb e'' _); simpl; trivial.
Qed.

Lemma float_of_int_not_negative z r :
  0 < z -> float_of_int z = Ok r -> not_negative r.
Proof.
  intros Hz. unfold float_of_int, binary_normalize.
  destruct z as [|p|p]; try lia.
  unfold binary_round.
  destruct (shl_align p 0 _) as [mz ez].
  pose proof (binary_round_aux_not_negative 53 1024 (Zpos mz) ez loc_Exact) as H.
  destruct (binary_round_aux 53 1024 false (Z.pos mz) ez loc_Exact);
    intros E; inversion E; subst; exact H.
Qed.

Lemma fleb_zero_not_negative t : fleb fzero t = true -> not_negative t.
Proof. destruct t as [s|s| |s m e]; try destruct s; simpl; trivial; discriminate. Qed.

Lemma fmul_not_negative x y :
  not_negative x -> not_negative y -> not_negative (fmul x y).
Proof.
  destruct x as [sx|sx| |sx mx ex], y as [sy|sy| |sy my ey]; simpl; trivial;
    intros; subst; simpl; trivial.
  apply binary_round_aux_not_negative.
Qed.

Lemma int_of_float_not_negative x i :
  not_negative x -> int_of_float x = Ok i -> 0 <= i.
Proof.
  destruct x as [s|s| |s m e]; simpl; intros H E; inversion E; subst; try lia.
  simpl. apply Z.shiftl_nonneg. lia.
Qed.

(** Times are ordered as the claims write them: [0 <= ts <= te]. *)
Lemma fleb_zero_trans ts te :
  fleb fzero ts = true -> fleb ts te = true -> fleb fzero te = true.
Proof.
  destruct ts as [s|s| |s m e], te as [s'|s'| |s' m' e'];
    try destruct s; try destruct s'; simpl; trivial; try discriminate.
Qed.

(** [int(x)] of a float [x] that is not negative is the floor of its
    value [m * 2^e]. *)
Lemma int_of_float_floor m e :
  int_of_float (S754_finite false m e)
  = Ok (if e <? 0 then Zpos m / 2 ^ (- e) else Zpos m * 2 ^ e).
Proof.
  simpl. f_equal. destruct (Z.ltb_spec e 0).
  - rewrite <- Z.shiftr_opp_r, Z.shiftr_div_pow2 by lia. reflexivity.
  - rewrite Z.shiftl_mul_pow2 by lia. reflexivity.
Qed.

End PyFacts.

Section IndexFacts.
Variable SAMPLE_RATE : Z.
Hypothesis rate_pos : 0 < SAMPLE_RATE.

(** A time that is not negative has an index that is not negative. *)
Lemma to_index_nonneg t i :
  Py.fleb Py.fzero t = true -> to_index SAMPLE_RATE t = Ok i -> 0 <= i.
Proof.
  intros Ht. unfold to_index, Py.fmul_int.
  destruct (Py.float_of_int SAMPLE_RATE) as [r|] eqn:Er; simpl; [|discriminate].
  apply PyFacts.int_of_float_not_negative, PyFacts.fmul_not_negative.
  - now apply PyFacts.fleb_zero_not_negative.
  - eapply PyFacts.float_of_int_not_negative; eassumption.
Qed.
End IndexFacts.

(** ** numpy: resizing and slice assignment *)

Module npFacts.
Import Py np.

Lemma length_join_replicate (a : list float32) n :
  length (mjoin (replicate n a)) = (n * length a)%nat.
Proof. induction n as [|n IH]; simpl; [|rewrite length_app, IH]; lia. Qed.

Lemma length_tile (a : list float32) n : a <> [] -> length (tile a n) = n.
Proof.
  intros Ha. unfold tile. rewrite length_take, length_join_replicate.
  destruct a; [congruence|]. simpl. nia.
Qed.

(** The old contents are the first elements of the repetition. *)
Lemma tile_prefix (a : list float32) n :
  (length a <= n)%nat -> a <> [] -> take (length a) (tile a n) = a.
Proof.
  intros Hn Ha. unfold tile. destruct n as [|n]; simpl.
  - destruct a; [congruence | simpl in Hn; lia].
  - rewrite take_take, Nat.min_l by lia.
    rewrite take_app_length. reflexivity.
Qed.

Lemma zeros_length n a : zeros n = Ok a -> len a = n.
Proof.
  unfold zeros, len. destruct (Z.ltb_spec n 0); intros E; inversion E.
  rewrite length_replicate. lia.
Qed.

Lemma resize_length a n a' : resize a n = Ok a' -> len a' = n.
Proof.
  unfold resize. destruct (Z.ltb_spec n 0); [discriminate|].
  destruct (Z.eqb_spec (len a) 0) as [E0|E0]; simpl.
  - apply zeros_length.
  - destruct (Z.eqb_spec n 0); [apply zeros_length|].
    intros E; inversion E. unfold len. rewrite length_tile; [lia|].
    intros ->. apply E0. reflexivity.
Qed.

(** Growing a non-empty array never fails and keeps what it held. *)
Lemma resize_grow a n :
  0 < len a <= n ->
  exists a', resize a n = Ok a' /\ len a' = n /\ take (length a) a' = a.
Proof.
  intros Hn. unfold resize.
  destruct (Z.ltb_spec n 0); [lia|].
  destruct (Z.eqb_spec (len a) 0); [lia|].
  destruct (Z.eqb_spec n 0); [lia|]. simpl.
  assert (a <> []) by (intros ->; unfold len in Hn; simpl in Hn; lia).
  eexists; split; [reflexivity|]. unfold len in *. split.
  - rewrite length_tile by assumption. lia.
  - apply tile_prefix; [lia | assumption].
Qed.

Lemma adjust_range n i : 0 <= n -> 0 <= adjust n i <= n.
Proof. unfold adjust. destruct (Z.ltb_spec i 0); lia. Qed.

(** A bound that is not negative is clipped to the length. *)
Lemma adjust_nonneg n i : 0 <= i -> adjust n i = Z.min i n.
Proof. unfold adjust. destruct (Z.ltb_spec i 0); lia. Qed.

Lemma len_nonneg {A} (l : list A) : 0 <= len l.
Proof. unfold len. lia. Qed.

(** Slice assignment never changes the length of the array. *)
Lemma setitem_slice_length a i j v a' :
  setitem_slice a i j v = Ok a' -> length a' = length a.
Proof.
  unfold setitem_slice, slice_lo, slice_len.
  pose proof (adjust_range (len a) i (len_nonneg a)) as Hi.
  pose proof (adjust_range (len a) j (len_nonneg a)) as Hj.
  unfold len in *.
  set (lo := adjust _ i) in *. set (hi := adjust _ j) in *.
  destruct (Nat.eqb_spec (length v) (Z.to_nat (hi - lo))) as [E|E].
  - intros H; inversion H.
    rewrite !length_app, length_take, length_drop. lia.
  - destruct v as [|x [|y v]]; try discriminate.
    intros H; inversion H.
    rewrite !length_app, length_take, length_drop, length_replicate. lia.
Qed.

(** A chunk written inside the array lands at its index. *)
Lemma setitem_slice_inside a i v :
  0 <= i -> i + len v <= len a ->
  setitem_slice a i (i + len v) v
  = Ok (take (Z.to_nat i) a ++ v ++ drop (Z.to_nat i + length v) a).
Proof.
  intros Hi Hv. unfold setitem_slice, slice_lo, slice_len.
  pose proof (len_nonneg v) as Hn.
  rewrite !adjust_nonneg by lia.
  rewrite !Z.min_l by lia.
  replace (Z.to_nat (i + len v - i)) with (length v) by (unfold len; lia).
  rewrite Nat.eqb_refl. reflexivity.
Qed.



(** Resizing to a size that is not negative never fails. *)
Lemma resize_ok a n : 0 <= n -> exists a', resize a n = Ok a'.
Proof.
  intros Hn. unfold resize, zeros.
  destruct (Z.ltb_spec n 0); [lia|].
  destruct (_ || _); eexists; reflexivity.
Qed.

(** Doubling a non-empty array appends a second copy of it, not zeros. *)
Lemma resize_double a : a <> [] -> resize a (len a * 2) = Ok (a ++ a).
Proof.
  intros Ha. unfold resize.
  assert (0 < len a) as Hlen
    by (unfold len; destruct a; [congruence | simpl; lia]).
  destruct (Z.ltb_spec (len a * 2) 0); [lia|].
  destruct (Z.eqb_spec (len a) 0); [lia|].
  destruct (Z.eqb_spec (len a * 2) 0); [lia|]. simpl.
  f_equal. unfold tile.
  replace (Z.to_nat (len a * 2)) with (S (S (2 * length a - 2)))
    by (unfold len in *; lia).
  cbn [replicate mjoin list_join]. rewrite app_assoc.
  replace (S (S (2 * length a - 2))) with (length (a ++ a))
    by (rewrite length_app; unfold len in *; lia).
  apply take_app_length.
Qed.

(** A chunk that ends past the end of the array is not written: a
    chunk of several samples does not have the shape of the clipped
    slice, and a chunk of one sample broadcasts to the empty slice. *)
Lemma setitem_slice_overrun a i v :
  len a < i + len v ->
  setitem_slice a i (i + len v) v
  = if len v <=? 1 then Ok a else Raise ValueError.
Proof.
  intros Hv. unfold setitem_slice, slice_lo, slice_len.
  pose proof (len_nonneg a) as Ha. pose proof (len_nonneg v) as Hn.
  pose proof (adjust_range (len a) i Ha) as Hlo.
  assert (adjust (len a) (i + len v) = len a) as ->
    by (rewrite adjust_nonneg by lia; lia).
  assert (len v = 0 -> adjust (len a) i = len a) as Hlo0
    by (intros E; rewrite adjust_nonneg by lia; lia).
  assert (1 <= len v -> len a - adjust (len a) i < len v) as Hlt
    by (unfold adjust; destruct (Z.ltb_spec i 0); lia).
  destruct v as [|x [|y v]].
  - rewrite Hlo0 by reflexivity. rewrite Z.sub_diag. simpl.
    rewrite Nat.add_0_r, take_drop. reflexivity.
  - pose proof (eq_refl : len [x] = 1) as E1.
    replace (Z.to_nat (len a - adjust (len a) i)) with 0%nat by lia.
    simpl. rewrite Nat.add_0_r, take_drop. reflexivity.
  - pose proof (eq_refl : len (x :: y :: v) = Z.of_nat (S (S (length v)))) as E2.
    destruct (Nat.eqb_spec (length (x :: y :: v))
                (Z.to_nat (len a - adjust (len a) i))) as [E|E].
    + simpl length in E. lia.
    + destruct (Z.leb_spec (len (x :: y :: v)) 1); [lia|].
      reflexivity.
Qed.

(** Reading back the window a chunk was written to gives the chunk. *)
Lemma splice_window (a v : list float32) i :
  (i + length v <= length a)%nat ->
  take (length v) (drop i (take i a ++ v ++ drop (i + length v) a)) = v.
Proof.
  intros Hi. rewrite drop_app_length' by (rewrite length_take; lia).
  apply take_app_length.
Qed.

(** Outside that window the array is as it was. *)
Lemma splice_outside (a v : list float32) i j :
  (i + length v <= length a)%nat ->
  (j < i \/ i + length v <= j)%nat ->
  (take i a ++ v ++ drop (i + length v) a) !! j = a !! j.
Proof.
  intros Hi [Hj|Hj].
  - rewrite lookup_app_l by (rewrite length_take; lia).
    apply lookup_take_lt. exact Hj.
  - rewrite lookup_app_r by (rewrite length_take; lia).
    rewrite length_take, Nat.min_l by lia.
    rewrite lookup_app_r by lia.
    rewrite lookup_drop. f_equal. lia.
Qed.

End npFacts.

(** ** The methods, case by case *)

Section MethodFacts.
Import Py np npFacts.
Variable SAMPLE_RATE : Z.

Lemma samples_inv s a :
  samples s = Some a ->
  exists h c l, s = State h (Self c (Some l)) /\ h !! l = Some a.
Proof.
  destruct s as [h [c [l|]]]; unfold samples; simpl; [|discriminate].
  intros H. exists h, c, l. split; [reflexivity | exact H].
Qed.

Lemma deref_lookup (h : heap) l a : h !! l = Some a -> deref h l = a.
Proof. unfold deref. intros ->. reflexivity. Qed.

Lemma deref_lookup_alloc (h : heap) (a : list float32) :
  (h ++ [a]) !! length h = Some a.
Proof. rewrite lookup_app_r by lia. rewrite Nat.sub_diag. reflexivity. Qed.

Lemma deref_alloc (h : heap) (a : list float32) :
  deref (h ++ [a]) (length h) = a.
Proof. unfold deref. rewrite deref_lookup_alloc. reflexivity. Qed.

Lemma store_alloc (h : heap) a a' : <[length h := a']> (h ++ [a]) = h ++ [a'].
Proof.
  rewrite insert_app_r_alt by lia. rewrite Nat.sub_diag. reflexivity.
Qed.

(** A write that ends within the capacity: the storage is assigned in
    place. *)
Lemma write_data_fits h c l a b t i :
  h !! l = Some a -> to_index SAMPLE_RATE t = Ok i -> i + len b <= c ->
  write_data SAMPLE_RATE b t (State h (Self c (Some l)))
  = match setitem_slice a i (i + len b) b with
    | Ok a' => (State (<[l := a']> h) (Self c (Some l)), Ok tt)
    | Raise e => (State h (Self c (Some l)), Raise e)
    end.
Proof.
  intros Hl Hi Hc. unfold write_data, bind, lift, get_capacity. simpl.
  rewrite Hi. destruct (Z.gtb_spec (i + len b) c); [lia|].
  unfold ret, get_data, load. simpl.
  rewrite (deref_lookup _ _ _ Hl).
  destruct (setitem_slice a i (i + len b) b); reflexivity.
Qed.

(** A write that ends past the capacity: the capacity is doubled, once,
    the samples move to a new array of that size, and the chunk is
    assigned there. *)
Lemma write_data_grows h c l a b t i :
  h !! l = Some a -> to_index SAMPLE_RATE t = Ok i -> c < i + len b ->
  write_data SAMPLE_RATE b t (State h (Self c (Some l)))
  = match resize a (c * 2) with
    | Ok a1 =>
        match setitem_slice a1 i (i + len b) b with
        | Ok a' => (State (h ++ [a']) (Self (c * 2) (Some (length h))), Ok tt)
        | Raise e => (State (h ++ [a1]) (Self (c * 2) (Some (length h))), Raise e)
        end
    | Raise e => (State h (Self (c * 2) (Some l)), Raise e)
    end.
Proof.
  intros Hl Hi Hc. unfold write_data, bind, lift, get_capacity. simpl.
  rewrite Hi. destruct (Z.gtb_spec (i + len b) c); [|lia].
  unfold set_capacity, get_data, load, alloc, set_data, store. simpl.
  rewrite (deref_lookup _ _ _ Hl).
  destruct (resize a (c * 2)) as [a1|e]; [|reflexivity]. simpl.
  rewrite deref_alloc.
  destruct (setitem_slice a1 i (i + len b) b); [|reflexivity].
  simpl. rewrite store_alloc. reflexivity.
Qed.

(** Without a storage every write raises [AttributeError]; the capacity
    is doubled all the same when the write ends past it. *)
Lemma write_data_no_storage h c b t i :
  to_index SAMPLE_RATE t = Ok i ->
  write_data SAMPLE_RATE b t (State h (Self c None))
  = (State h (Self (if i + len b >? c then c * 2 else c) None),
     Raise AttributeError).
Proof.
  intros Hi. unfold write_data, bind, lift, get_capacity. simpl.
  rewrite Hi. destruct (i + len b >? c); reflexivity.
Qed.

(** A write whose time has no index raises before it touches anything. *)
Lemma write_data_no_index s b t e :
  to_index SAMPLE_RATE t = Raise e ->
  write_data SAMPLE_RATE b t s = (s, Raise e).
Proof.
  intros Hi. unfold write_data, bind, lift. rewrite Hi. reflexivity.
Qed.

(** A read of a buffer with storage gives the window of the slice on the
    storage itself, and leaves the state alone. *)
Lemma read_data_view h c l a ts te i j :
  h !! l = Some a ->
  to_index SAMPLE_RATE ts = Ok i -> to_index SAMPLE_RATE te = Ok j ->
  read_data SAMPLE_RATE ts te (State h (Self c (Some l)))
  = (State h (Self c (Some l)),
     Ok (View l (slice_lo (len a) i) (slice_len (len a) i j))).
Proof.
  intros Hl Hi Hj. unfold read_data, bind, lift. rewrite Hi, Hj.
  unfold get_data, load, ret. simpl.
  rewrite (deref_lookup _ _ _ Hl). reflexivity.
Qed.

(** The capacity after a write, whatever its outcome. *)
Lemma write_data_capacity s b t :
  capacity (self (after (write_data SAMPLE_RATE b t s))) = capacity (self s)
  \/ capacity (self (after (write_data SAMPLE_RATE b t s))) = capacity (self s) * 2.
Proof.
  destruct (to_index SAMPLE_RATE t) as [i|e] eqn:Hi.
  2:{ rewrite (write_data_no_index _ _ _ _ Hi). left; reflexivity. }
  destruct s as [h [c [l|]]].
  2:{ rewrite (write_data_no_storage _ _ _ _ _ Hi). simpl.
      destruct (i + len b >? c); auto. }
  unfold write_data, bind, lift, get_capacity. simpl. rewrite Hi.
  destruct (i + len b >? c).
  - right. unfold set_capacity, get_data, load, alloc, set_data, store. simpl.
    destruct (resize _ _); [|reflexivity]. simpl.
    destruct (setitem_slice _ _ _ _); reflexivity.
  - left. unfold ret, get_data, load, store. simpl.
    destruct (setitem_slice _ _ _ _); reflexivity.
Qed.

(** Every write keeps the invariant of the data model, also when it
    raises. *)
Lemma samples_State h c l : samples (State h (Self c (Some l))) = h !! l.
Proof. reflexivity. Qed.

Lemma storage_ok_State h c l a :
  h !! l = Some a -> len a = c -> storage_ok (State h (Self c (Some l))) = true.
Proof.
  intros Hl Hc. unfold storage_ok. rewrite samples_State, Hl.
  now apply Z.eqb_eq.
Qed.

Lemma storage_ok_inv s :
  storage_ok s = true ->
  exists h l a, s = State h (Self (len a) (Some l)) /\ h !! l = Some a.
Proof.
  unfold storage_ok. destruct (samples s) as [a|] eqn:Hs; [|discriminate].
  destruct (samples_inv _ _ Hs) as (h & c & l & -> & Hl).
  intros Hc%Z.eqb_eq. simpl in Hc. subst c. now exists h, l, a.
Qed.

(** Every write keeps the invariant of the data model, also when it
    raises. *)
Lemma write_data_storage_ok s b t :
  storage_ok s = true ->
  storage_ok (after (write_data SAMPLE_RATE b t s)) = true.
Proof.
  intros Hs. destruct (storage_ok_inv _ Hs) as (h & l & a & -> & Hl).
  destruct (to_index SAMPLE_RATE t) as [i|e] eqn:Hi.
  2:{ rewrite (write_data_no_index _ _ _ _ Hi). exact Hs. }
  destruct (Z.le_gt_cases (i + len b) (len a)) as [Hfit|Hgrow].
  - rewrite (write_data_fits _ _ _ _ _ _ _ Hl Hi Hfit).
    destruct (setitem_slice a i (i + len b) b) as [a'|e] eqn:Ha;
      unfold after; cbn [fst]; [|exact Hs].
    apply storage_ok_State with a'.
    + apply list_lookup_insert_eq. eapply lookup_lt_Some; eassumption.
    + unfold len. now rewrite (setitem_slice_length _ _ _ _ _ Ha).
  - rewrite (write_data_grows _ _ _ _ _ _ _ Hl Hi Hgrow).
    destruct (resize a (len a * 2)) as [a1|e] eqn:Hr.
    2:{ exfalso. unfold resize, zeros in Hr.
        pose proof (len_nonneg a).
        destruct (Z.ltb_spec (len a * 2) 0); [lia|].
        destruct (_ || _); discriminate. }
    apply resize_length in Hr.
    destruct (setitem_slice a1 i (i + len b) b) as [a'|e] eqn:Ha;
      unfold after; cbn [fst].
    + apply storage_ok_State with a'; [apply deref_lookup_alloc|].
      unfold len in *. now rewrite (setitem_slice_length _ _ _ _ _ Ha).
    + apply storage_ok_State with a1; [apply deref_lookup_alloc | exact Hr].
Qed.

(** A write that a single doubling can hold, at an index that is not
    negative, succeeds: the chunk is put at its index, into the storage
    itself or into the storage followed by a copy of itself. *)
Lemma write_data_within s a b t i :
  samples s = Some a -> len a = capacity (self s) ->
  to_index SAMPLE_RATE t = Ok i -> 0 <= i ->
  i + len b <= capacity (self s) * 2 ->
  exists s1 a1,
    write_data SAMPLE_RATE b t s = (s1, Ok tt) /\
    samples s1
    = Some (take (Z.to_nat i) a1 ++ b ++ drop (Z.to_nat i + length b) a1) /\
    len a1 = capacity (self s1) /\ i + len b <= capacity (self s1) /\
    (i + len b <= capacity (self s) /\ a1 = a
     \/ capacity (self s) < i + len b /\ a1 = a ++ a /\
        capacity (self s1) = capacity (self s) * 2).
Proof.
  intros Hs Hc Hi Hi0 He.
  destruct (samples_inv _ _ Hs) as (h & c & l & -> & Hl).
  cbn [self capacity] in *. subst c.
  destruct (Z.le_gt_cases (i + len b) (len a)) as [Hfit|Hgrow].
  - rewrite (write_data_fits _ _ _ _ _ _ _ Hl Hi Hfit).
    rewrite setitem_slice_inside by assumption.
    eexists _, a. split; [reflexivity|]. rewrite samples_State.
    split; [|cbn [self capacity]; auto].
    apply list_lookup_insert_eq. eapply lookup_lt_Some; eassumption.
  - assert (a <> []) as Ha
      by (intros ->; unfold len in Hgrow, He; simpl in Hgrow, He; lia).
    rewrite (write_data_grows _ _ _ _ _ _ _ Hl Hi Hgrow).
    rewrite (resize_double _ Ha).
    assert (len (a ++ a) = len a * 2) as Haa
      by (unfold len; rewrite length_app; lia).
    rewrite setitem_slice_inside by lia.
    eexists _, (a ++ a). split; [reflexivity|]. rewrite samples_State.
    split; [apply deref_lookup_alloc|]. cbn [self capacity].
    repeat split; auto; lia.
Qed.

(** Construction from an expected duration: a zero-filled storage of
    [int(duration * SAMPLE_RATE)] samples. *)
Lemma new_from_duration h duration c :
  to_index SAMPLE_RATE duration = Ok c -> 0 <= c ->
  new SAMPLE_RATE h (Some duration) None
  = (State (h ++ [replicate (Z.to_nat c) f32_zero])
           (Self c (Some (length h))), Ok tt).
Proof.
  intros Hc H0. unfold new, __init__, bind, lift. rewrite Hc. simpl.
  unfold zeros. destruct (Z.ltb_spec c 0); [lia|]. reflexivity.
Qed.

(** Loading replaces storage and capacity wholesale. *)
Lemma load_data_ok s a :
  load_data (Ok a) s
  = (State (mem s ++ [a]) (Self (len a) (Some (length (mem s)))), Ok tt).
Proof. reflexivity. Qed.

(** A loader that fails leaves the buffer as it was. *)
Lemma load_data_raises s e : load_data (Raise e) s = (s, Raise e).
Proof. reflexivity. Qed.

Lemma new_storage_ok h duration c :
  to_index SAMPLE_RATE duration = Ok c -> 0 <= c ->
  storage_ok (after (new SAMPLE_RATE h (Some duration) None)) = true.
Proof.
  intros Hc H0. rewrite (new_from_duration _ _ _ Hc H0).
  apply storage_ok_State with (replicate (Z.to_nat c) f32_zero).
  - apply deref_lookup_alloc.
  - unfold len. rewrite length_replicate. lia.
Qed.

Lemma load_data_storage_ok s a :
  storage_ok (after (load_data (Ok a) s)) = true.
Proof.
  rewrite load_data_ok. apply storage_ok_State with a;
    [apply deref_lookup_alloc | reflexivity].
Qed.

End MethodFacts.

(** * The claims of the specification *)

Import Py np.

(** ** Construction *)

(** C5 (storage and capacity at construction).  The specification has
    every construction path set up a zero-filled storage of [capacity]
    samples, the path without a known duration included.  The code does so
    when a MIDI duration is given ([new_storage_ok]) and when
    audio is loaded ([load_data_storage_ok]), and every write keeps
    [len(samples) == capacity] ([write_data_storage_ok]); but
    [AudioData()], with neither, only sets [capacity] to
    [60 * SAMPLE_RATE]: the attribute [data] is never assigned, so the
    buffer has no storage at all and a read of it raises
    [AttributeError]. *)
Theorem new_default_has_no_storage (SAMPLE_RATE : Z) (h : heap) :
  new SAMPLE_RATE h None None
  = (State h (Self (DEFAULT_LENGTH * SAMPLE_RATE) None), Ok tt)
  /\ samples (after (new SAMPLE_RATE h None None)) = None
  /\ storage_ok (after (new SAMPLE_RATE h None None)) = false
  /\ outcome (read_data Scenario.SAMPLE_RATE fzero fzero Scenario.buf_default)
     = Raise AttributeError.
Proof.
  split; [reflexivity|]. split; [reflexivity|]. split; [reflexivity|].
  vm_compute. reflexivity.
Qed.

(** ** Growth *)

(** C1 (capacity coverage).  The specification wants the capacity doubled
    until it covers the end of the write.  [write_data] doubles it once:
    when the write ends past twice the capacity, the capacity after the
    call is still below the end index, and the chunk is not stored: the
    call raises [ValueError], or, for a chunk of at most one sample,
    returns normally having written nothing. *)
Theorem write_data_doubles_once (SAMPLE_RATE : Z) (s : state)
    (b : list float32) (t : float) (i : Z) :
  storage_ok s = true ->
  fleb fzero t = true ->
  to_index SAMPLE_RATE t = Ok i ->
  capacity (self s) * 2 < i + len b ->
  let r := write_data SAMPLE_RATE b t s in
  capacity (self (after r)) = capacity (self s) * 2 /\
  capacity (self (after r)) < i + len b /\
  outcome r = (if len b <=? 1 then Ok tt else Raise ValueError) /\
  exists a a1, samples s = Some a /\
               resize a (capacity (self s) * 2) = Ok a1 /\
               samples (after r) = Some a1.
Proof.
  intros Hs _ Hi He.
  destruct (storage_ok_inv _ Hs) as (h & l & a & -> & Hl).
  cbn [self capacity] in *. pose proof (npFacts.len_nonneg a) as Ha.
  assert (len a < i + len b) as Hgrow by lia.
  rewrite (write_data_grows _ _ _ _ _ _ _ _ Hl Hi Hgrow).
  destruct (npFacts.resize_ok a (len a * 2)) as [a1 Hr]; [lia|].
  rewrite Hr. pose proof (npFacts.resize_length _ _ _ Hr) as Hlen.
  rewrite npFacts.setitem_slice_overrun by lia.
  cbv zeta. unfold after, outcome.
  assert (samples (State (h ++ [a1]) (Self (len a * 2) (Some (length h))))
          = Some a1) as Hs1
    by (rewrite samples_State; apply deref_lookup_alloc).
  destruct (len b <=? 1); cbn [fst snd self capacity];
    (repeat split; [lia|]; exists a, a1; repeat split;
       [rewrite samples_State; exact Hl | exact Hr | exact Hs1]).
Qed.

Lemma write_data_doubles_once_witness :
  let r := write_data 100 (replicate 20 f32_two) (fdiv_int 3 1) Scenario.buf1 in
  capacity (self (after r)) = 200 /\
  capacity (self (after r)) < 300 + 20 /\
  outcome r = Raise ValueError.
Proof.
  destruct (write_data_doubles_once 100 Scenario.buf1 (replicate 20 f32_two)
              (fdiv_int 3 1) 300) as (H1 & H2 & H3 & _);
    [vm_compute; reflexivity ..|].
  split; [exact H1|]. split; [exact H2 | exact H3].
Defined.


(** C2 (content preservation on growth).  A write that ends past the
    capacity, and fits once it is doubled, moves the samples to a new
    array before the chunk is copied in, and every old sample outside
    the written range keeps its index.  But the new tail is not zero:
    [np.resize] fills it with a second copy of the old samples, so
    outside the written range the sample at [j >= capacity] is the old
    sample at [j - capacity]. *)
Theorem growth_repeats_old_samples (SAMPLE_RATE : Z) (s : state)
    (a b : list float32) (t : float) (i : Z) :
  samples s = Some a -> len a = capacity (self s) ->
  to_index SAMPLE_RATE t = Ok i -> 0 <= i ->
  capacity (self s) < i + len b <= capacity (self s) * 2 ->
  exists s1 a1,
    write_data SAMPLE_RATE b t s = (s1, Ok tt) /\
    capacity (self s1) = capacity (self s) * 2 /\
    samples s1 = Some a1 /\ len a1 = capacity (self s1) /\
    forall j : nat, ~ (i <= Z.of_nat j < i + len b) ->
      ((j < length a)%nat -> a1 !! j = a !! j) /\
      ((length a <= j < 2 * length a)%nat -> a1 !! j = a !! (j - length a)%nat).
Proof.
  intros Hs Hc Hi Hi0 [Hgrow He].
  destruct (write_data_within SAMPLE_RATE s a b t i Hs Hc Hi Hi0 He)
    as (s1 & a0 & Hw & Hs1 & Hlen & Hend & [[Hfit _] | (_ & -> & Hc1)]); [lia|].
  exists s1, (take (Z.to_nat i) (a ++ a) ++ b
              ++ drop (Z.to_nat i + length b) (a ++ a)).
  assert (Z.to_nat i + length b <= length (a ++ a))%nat as Hin
    by (unfold len in *; lia).
  split; [exact Hw|]. split; [exact Hc1|]. split; [exact Hs1|]. split.
  - rewrite <- Hlen. unfold len. rewrite length_app in Hin.
    rewrite !length_app, length_take, length_drop, !length_app. lia.
  - intros j Hj.
    assert (j < Z.to_nat i \/ Z.to_nat i + length b <= j)%nat as Hout
      by (unfold len in *; lia).
    rewrite (npFacts.splice_outside _ _ _ _ Hin Hout). split; intros Hja.
    + apply lookup_app_l. exact Hja.
    + apply lookup_app_r. lia.
Qed.

Lemma growth_repeats_old_samples_witness :
  exists s1 a1,
    write_data 100 (replicate 20 f32_two) (fdiv_int 95 100) Scenario.buf2
    = (s1, Ok tt) /\
    capacity (self s1) = 200 /\ samples s1 = Some a1 /\
    a1 !! 150%nat = Some f32_one /\ a1 !! 50%nat = Some f32_one.
Proof.
  destruct (growth_repeats_old_samples 100 Scenario.buf2
              (replicate 50 f32_zero ++ replicate 3 f32_one
               ++ replicate 47 f32_zero)
              (replicate 20 f32_two) (fdiv_int 95 100) 95)
    as (s1 & a1 & Hw & Hc & Hs & _ & Hj);
    [vm_compute; reflexivity | reflexivity | vm_compute; reflexivity
    | lia | vm_compute; split; [reflexivity | discriminate] |].
  exists s1, a1. split; [exact Hw|]. split; [exact Hc|]. split; [exact Hs|].
  split.
  - destruct (Hj 150%nat) as [_ H]; [unfold len; simpl; lia|].
    rewrite H by (simpl; lia). reflexivity.
  - destruct (Hj 50%nat) as [H _]; [unfold len; simpl; lia|].
    rewrite H by (simpl; lia). reflexivity.
Defined.

(** The scenario of the specification, step 4: after the growth, index
    150 was never written and holds 1.0, the sample written at index 50
    in step 2. *)
Example scenario_step4_tail :
  capacity (self Scenario.buf4) = 200 /\
  exists a, samples Scenario.buf4 = Some a /\
            a !! 150%nat = Some f32_one /\ a !! 50%nat = Some f32_one /\
            a !! 95%nat = Some f32_two /\ a !! 114%nat = Some f32_two.
Proof.
  split; [vm_compute; reflexivity|].
  eexists. split; [vm_compute; reflexivity|].
  repeat split.
Qed.


(** ** Reading back what was written *)

(** C4, as the specification states it, fails: with sample rate 100, in
    the buffer of one second, 29 samples are written at time 0.0 and the
    window [0.0, 0.0 + 29/100) is read back.  In double precision
    [(0.0 + 29/100) * 100] is 28.999999999999996, whose integer part is
    28: the read returns 28 samples. *)
Lemma round_trip_counterexample :
  ~ round_trip 100 Scenario.buf1 (replicate 29 f32_one) fzero.
Proof.
  intros (s1 & v & Hw & Hr & Hv).
  vm_compute in Hw. injection Hw as <-.
  vm_compute in Hr. injection Hr as <-.
  apply (f_equal length) in Hv. vm_compute in Hv. discriminate.
Qed.

(** C4 (read/write round trip), amended.  In a buffer whose storage has
    [capacity] samples, a chunk written at a time that is not negative,
    and ending within twice the capacity, is returned exactly by a read
    that starts at the same time and ends at any time whose index is the
    end index of the write. *)
Theorem round_trip_when_indices_agree (SAMPLE_RATE : Z) (s : state)
    (b : list float32) (t te : float) (i : Z) :
  0 < SAMPLE_RATE ->
  storage_ok s = true ->
  fleb fzero t = true ->
  to_index SAMPLE_RATE t = Ok i ->
  i + len b <= capacity (self s) * 2 ->
  to_index SAMPLE_RATE te = Ok (i + len b) ->
  exists s1 v,
    write_data SAMPLE_RATE b t s = (s1, Ok tt) /\
    read_data SAMPLE_RATE t te s1 = (s1, Ok v) /\
    view_get (mem s1) v = b.
Proof.
  intros Hrate Hok Ht Hi He Hj.
  pose proof (to_index_nonneg SAMPLE_RATE Hrate t i Ht Hi) as Hi0.
  destruct (storage_ok_inv _ Hok) as (h & l & a & -> & Hl).
  destruct (write_data_within SAMPLE_RATE _ a b t i
              (eq_trans (samples_State _ _ _) Hl) eq_refl Hi Hi0 He)
    as (s1 & a1 & Hw & Hs1 & Hlen & Hend & _).
  exists s1. destruct (samples_inv _ _ Hs1) as (h1 & c1 & l1 & -> & Hl1).
  cbn [self capacity] in Hlen, Hend.
  eexists. split; [exact Hw|].
  rewrite (read_data_view SAMPLE_RATE _ _ _ _ _ _ _ _ Hl1 Hi Hj).
  split; [reflexivity|].
  unfold view_get. cbn [base offset size mem].
  rewrite (deref_lookup _ _ _ Hl1).
  assert (Z.to_nat i + length b <= length a1)%nat as Hin
    by (unfold len in *; lia).
  set (a' := take _ a1 ++ b ++ drop _ a1).
  assert (len a' = len a1) as Ha'.
  { unfold a', len.
    rewrite !length_app, length_take, length_drop. lia. }
  unfold slice_lo, slice_len. pose proof (npFacts.len_nonneg b).
  rewrite !npFacts.adjust_nonneg by lia. rewrite Ha', !Z.min_l by lia.
  replace (Z.to_nat (i + len b - i)) with (length b) by (unfold len; lia).
  apply npFacts.splice_window. exact Hin.
Qed.

(** The 29 samples written at time 0.0, which the window up to
    [0.0 + 29/100] misses by one, are all returned by the window up to
    0.295, whose index is 29. *)
Lemma round_trip_when_indices_agree_witness :
  exists s1 v,
    write_data 100 (replicate 29 f32_one) fzero Scenario.buf1 = (s1, Ok tt) /\
    read_data 100 fzero (fdiv_int 295 1000) s1 = (s1, Ok v) /\
    view_get (mem s1) v = replicate 29 f32_one.
Proof.
  apply (round_trip_when_indices_agree 100 Scenario.buf1
           (replicate 29 f32_one) fzero (fdiv_int 295 1000) 0);
    vm_compute; reflexivity || discriminate.
Defined.


(** ** Writes at the edges: negative times and empty chunks *)








(** ** Reads *)

(** C7, as the specification states it, fails: [int()] has no value
    for an infinite product.  In the buffer of one second at sample rate
    100, the window from 0.0 to 1e308 has [0 <= start_time <= end_time],
    but [1e308 * 100] is [inf] in double precision and the read raises
    [OverflowError].  And a read of [AudioData()], whatever the window,
    raises [AttributeError]. *)
Lemma read_returns_counterexample :
  ~ read_returns 100 Scenario.buf1 fzero (fdiv_int (10 ^ 308) 1) /\
  outcome (read_data 100 fzero (fdiv_int (10 ^ 308) 1) Scenario.buf1)
  = Raise OverflowError /\
  ~ read_returns 100 Scenario.buf_default fzero fzero.
Proof.
  split; [|split].
  - intros H. destruct H as [v Hv]; [reflexivity | reflexivity |].
    vm_compute in Hv. discriminate.
  - vm_compute. reflexivity.
  - intros H. destruct H as [v Hv]; [reflexivity | reflexivity |].
    vm_compute in Hv. discriminate.
Qed.

(** The integer part of a float that is not negative is the floor of
    its value. *)
Lemma int_of_float_is_floor (x : float) (i : Z) :
  not_negative x -> int_of_float x = Ok i -> floor x = Some i.
Proof.
  destruct x as [s|s| |s m e]; cbn [not_negative int_of_float floor];
    intros Hx E; try discriminate.
  - congruence.
  - subst s. cbn [cond_Zopp] in *.
    pose proof (PyFacts.int_of_float_floor m e) as H.
    cbn [int_of_float cond_Zopp] in H. congruence.
Qed.

Lemma to_index_is_floor (SAMPLE_RATE : Z) (t : float) (i : Z) :
  0 < SAMPLE_RATE -> fleb fzero t = true -> to_index SAMPLE_RATE t = Ok i ->
  exists r, float_of_int SAMPLE_RATE = Ok r /\ floor (fmul t r) = Some i.
Proof.
  intros Hrate Ht. unfold to_index, fmul_int.
  destruct (float_of_int SAMPLE_RATE) as [r|] eqn:Er; simpl; [|discriminate].
  intros Hi. exists r. split; [reflexivity|].
  apply int_of_float_is_floor; [|exact Hi].
  apply PyFacts.fmul_not_negative.
  - now apply PyFacts.fleb_zero_not_negative.
  - eapply PyFacts.float_of_int_not_negative; eassumption.
Qed.

(** C7 (clamped tolerant read), amended.  For a positive rate [r], a
    buffer whose storage has [capacity] samples and times
    [0 <= start_time <= end_time] whose products with the rate are
    finite, a read never raises.  Its indices are the floors of the
    double-precision products [start_time * r] and [end_time * r]; it
    returns the samples from [min(start_index, capacity)] up to
    [min(end_index, capacity)], a window that lies within the storage,
    and nothing when the end index is not above the start index, as in
    [read_data(t, t)]. *)
Theorem read_data_clamped (SAMPLE_RATE : Z) (s : state) (a : list float32)
    (ts te : float) (i j : Z) :
  0 < SAMPLE_RATE ->
  samples s = Some a -> len a = capacity (self s) ->
  fleb fzero ts = true -> fleb ts te = true ->
  to_index SAMPLE_RATE ts = Ok i -> to_index SAMPLE_RATE te = Ok j ->
  let lo := Z.min i (capacity (self s)) in
  let hi := Z.min j (capacity (self s)) in
  (exists r, float_of_int SAMPLE_RATE = Ok r /\
             floor (fmul ts r) = Some i /\ floor (fmul te r) = Some j) /\
  0 <= lo <= capacity (self s) /\ 0 <= hi <= capacity (self s) /\
  exists v,
    read_data SAMPLE_RATE ts te s = (s, Ok v) /\
    offset v = Z.to_nat lo /\ size v = Z.to_nat (hi - lo) /\
    (offset v + size v <= length a)%nat /\
    view_get (mem s) v = take (Z.to_nat (hi - lo)) (drop (Z.to_nat lo) a) /\
    (j <= i -> view_get (mem s) v = []).
Proof.
  intros Hrate Hs Hc Hts Hte Hi Hj lo hi.
  pose proof (PyFacts.fleb_zero_trans _ _ Hts Hte) as Hte0.
  pose proof (to_index_nonneg SAMPLE_RATE Hrate ts i Hts Hi) as Hi0.
  pose proof (to_index_nonneg SAMPLE_RATE Hrate te j Hte0 Hj) as Hj0.
  split.
  { destruct (to_index_is_floor SAMPLE_RATE ts i Hrate Hts Hi) as (r & Hr & Fi).
    destruct (to_index_is_floor SAMPLE_RATE te j Hrate Hte0 Hj) as (r' & Hr' & Fj).
    assert (r' = r) as -> by congruence. exists r. auto. }
  destruct (samples_inv _ _ Hs) as (h & c & l & -> & Hl).
  cbn [self capacity mem] in *. subst c.
  pose proof (npFacts.len_nonneg a) as Ha.
  split; [lia|]. split; [lia|].
  rewrite (read_data_view SAMPLE_RATE _ _ _ _ _ _ _ _ Hl Hi Hj).
  eexists. split; [reflexivity|].
  unfold view_get. cbn [base offset size].
  rewrite (deref_lookup _ _ _ Hl).
  unfold slice_lo, slice_len. rewrite !npFacts.adjust_nonneg by lia.
  fold lo hi. split; [reflexivity|]. split; [reflexivity|].
  split; [unfold len in *; lia|]. split; [reflexivity|].
  intros Hji. replace (Z.to_nat (hi - lo)) with 0%nat by lia. reflexivity.
Qed.

(** A window that runs past the capacity is cut at the capacity, and the
    window from a time to itself is empty. *)
Lemma read_data_clamped_witness :
  (exists v,
     read_data 100 (fdiv_int 49 100) (fdiv_int 2 1) Scenario.buf2
     = (Scenario.buf2, Ok v) /\
     offset v = 49%nat /\ size v = 51%nat /\
     view_get (mem Scenario.buf2) v
     = [f32_zero; f32_one; f32_one; f32_one] ++ replicate 47 f32_zero) /\
  (exists v,
     read_data 100 (fdiv_int 5 10) (fdiv_int 5 10) Scenario.buf2
     = (Scenario.buf2, Ok v) /\
     view_get (mem Scenario.buf2) v = []).
Proof.
  split.
  - destruct (read_data_clamped 100 Scenario.buf2
                (replicate 50 f32_zero ++ replicate 3 f32_one
                 ++ replicate 47 f32_zero)
                (fdiv_int 49 100) (fdiv_int 2 1) 49 200)
      as (_ & _ & _ & v & Hr & Ho & Hn & _ & Hv & _); [vm_compute; reflexivity ..|].
    exists v. split; [exact Hr|]. split; [exact Ho|]. split; [exact Hn | exact Hv].
  - destruct (read_data_clamped 100 Scenario.buf2
                (replicate 50 f32_zero ++ replicate 3 f32_one
                 ++ replicate 47 f32_zero)
                (fdiv_int 5 10) (fdiv_int 5 10) 50 50)
      as (_ & _ & _ & v & Hr & _ & _ & _ & _ & He); [vm_compute; reflexivity ..|].
    exists v. split; [exact Hr|]. apply He. lia.
Defined.

(** C9, as the specification states it, fails: what [read_data] returns
    is a slice of [self.data], which in numpy shares the memory of the
    array.  In the buffer of one second at sample rate 100, the window
    [0.5, 0.53) is read; after three samples 1.0 are written at 0.5 the
    sequence that was returned holds 1.0 three times, no longer the zeros
    it held. *)
Lemma read_is_copy_counterexample :
  ~ read_is_copy 100 Scenario.buf1 (fdiv_int 5 10) (fdiv_int 53 100).
Proof.
  intros H.
  destruct (H (View 0 50 3)) as [Hw _]; [vm_compute; reflexivity|].
  specialize (Hw (replicate 3 f32_one) (fdiv_int 5 10)).
  vm_compute in Hw. discriminate.
Qed.

(** C9 (what a read returns), amended.  [read_data] returns the slice
    [self.data[start_index:end_index]] as a window on the storage of the
    buffer, not as a copy.  It leaves the buffer as it is; the window
    starts and ends where Python puts the bounds of that slice and shows
    the samples between them; it follows every later write that stays
    within the capacity, stays on the old array when a later write
    grows the buffer, and passes assignments on to the buffer. *)
Theorem read_data_returns_view (SAMPLE_RATE : Z) (s s' : state)
    (a : list float32) (ts te : float) (v : view) :
  samples s = Some a ->
  read_data SAMPLE_RATE ts te s = (s', Ok v) ->
  s' = s /\
  (exists i j,
     to_index SAMPLE_RATE ts = Ok i /\ to_index SAMPLE_RATE te = Ok j /\
     offset v = slice_lo (len a) i /\ size v = slice_len (len a) i j /\
     view_get (mem s) v
     = take (slice_len (len a) i j) (drop (slice_lo (len a) i) a)) /\
  is_live_view SAMPLE_RATE s a v.
Proof.
  intros Hs Hr.
  destruct (samples_inv _ _ Hs) as (h & c & l & -> & Hl).
  assert (s' = State h (Self c (Some l)) /\ base v = l /\
          (offset v + size v <= length a)%nat /\
          exists i j,
            to_index SAMPLE_RATE ts = Ok i /\ to_index SAMPLE_RATE te = Ok j /\
            offset v = slice_lo (len a) i /\ size v = slice_len (len a) i j)
    as (-> & Hb & Hin & i0 & j0 & Hi0 & Hj0 & Hoff & Hsize).
  { destruct (to_index SAMPLE_RATE ts) as [i|e] eqn:Hi;
      [|unfold read_data, bind, lift in Hr; rewrite Hi in Hr; discriminate].
    destruct (to_index SAMPLE_RATE te) as [j|e] eqn:Hj;
      [|unfold read_data, bind, lift in Hr; rewrite Hi, Hj in Hr; discriminate].
    rewrite (read_data_view SAMPLE_RATE _ _ _ _ _ _ _ _ Hl Hi Hj) in Hr.
    injection Hr as <- <-. split; [reflexivity|]. split; [reflexivity|].
    split; [|exists i, j; repeat split].
    cbn [offset size]. unfold slice_lo, slice_len.
    pose proof (npFacts.len_nonneg a) as Ha.
    pose proof (npFacts.adjust_range (len a) i Ha).
    pose proof (npFacts.adjust_range (len a) j Ha).
    unfold len in *. lia. }
  split; [reflexivity|]. split.
  { exists i0, j0. split; [exact Hi0|]. split; [exact Hj0|].
    split; [exact Hoff|]. split; [exact Hsize|].
    unfold view_get. cbn [mem].
    rewrite Hb, (deref_lookup _ _ _ Hl), Hoff, Hsize. reflexivity. }
  unfold is_live_view. cbn [self mem data capacity].
  assert (l < length h)%nat as Hlt by (eapply lookup_lt_Some; eassumption).
  split; [now rewrite Hb|]. split; [|split; [|split]].
  - unfold view_get. rewrite Hb, (deref_lookup _ _ _ Hl). reflexivity.
  - intros b t i s2 Hi Hfit Hw.
    rewrite (write_data_fits SAMPLE_RATE _ _ _ _ _ _ _ Hl Hi Hfit) in Hw.
    destruct (setitem_slice a i (i + len b) b) as [a'|e]; [|discriminate].
    injection Hw as <-. exists a'. rewrite samples_State.
    assert (<[l := a']> h !! l = Some a') as Hl'
      by (apply list_lookup_insert_eq; exact Hlt).
    split; [exact Hl'|].
    unfold view_get. cbn [mem]. rewrite Hb, (deref_lookup _ _ _ Hl').
    reflexivity.
  - intros b t i s2 r Hi Hgrow Hw.
    rewrite (write_data_grows SAMPLE_RATE _ _ _ _ _ _ _ Hl Hi Hgrow) in Hw.
    assert (forall x : list float32, deref (h ++ [x]) l = deref h l) as Happ
      by (intros x; unfold deref; rewrite lookup_app_l by exact Hlt; reflexivity).
    unfold view_get. rewrite Hb.
    destruct (resize a (c * 2)) as [a1|e];
      [destruct (setitem_slice a1 i (i + len b) b) as [a'|e]|];
      injection Hw as <- _; cbn [mem]; rewrite ?Happ; reflexivity.
  - intros k x Hk. unfold view_setitem, samples. cbn [self data mem].
    destruct (Nat.ltb_spec k (size v)); [|lia].
    rewrite Hb, (deref_lookup _ _ _ Hl).
    apply list_lookup_insert_eq. exact Hlt.
Qed.

(** The window [0.5, 0.53) of the buffer of one second is the three
    samples from index 50 on, on the storage itself. *)
Lemma read_data_returns_view_witness :
  (exists i j,
     to_index 100 (fdiv_int 5 10) = Ok i /\ to_index 100 (fdiv_int 53 100) = Ok j /\
     offset (View 0 50 3) = slice_lo 100 i /\
     size (View 0 50 3) = slice_len 100 i j /\
     view_get (mem Scenario.buf1) (View 0 50 3)
     = take (slice_len 100 i j) (drop (slice_lo 100 i) (replicate 100 f32_zero))) /\
  is_live_view 100 Scenario.buf1 (replicate 100 f32_zero) (View 0 50 3).
Proof.
  destruct (read_data_returns_view 100 Scenario.buf1 Scenario.buf1
              (replicate 100 f32_zero) (fdiv_int 5 10) (fdiv_int 53 100)
              (View 0 50 3)) as (_ & Hij & Hlive);
    [vm_compute; reflexivity ..|].
  split; [exact Hij | exact Hlive].
Defined.


(** ** Capacity over the lifetime of a buffer *)





(** * Further properties of the code *)

(** ** Writes within the capacity *)

(** The array after a chunk is put at [i]: the chunk inside its range,
    the array as it was outside. *)
Lemma splice_lookup (a v : list float32) (i j : nat) :
  (i + length v <= length a)%nat ->
  (take i a ++ v ++ drop (i + length v) a) !! j
  = if ((i <=? j) && (j <? i + length v))%nat then v !! (j - i)%nat else a !! j.
Proof.
  intros Hi.
  destruct (Nat.leb_spec i j) as [Hij|Hij]; simpl.
  - destruct (Nat.ltb_spec j (i + length v)) as [Hjv|Hjv].
    + rewrite lookup_app_r by (rewrite length_take; lia).
      rewrite length_take, Nat.min_l by lia.
      apply lookup_app_l. lia.
    + apply npFacts.splice_outside; [exact Hi | lia].
  - apply npFacts.splice_outside; [exact Hi | lia].
Qed.

Lemma splice_length (a v : list float32) (i : nat) :
  (i + length v <= length a)%nat ->
  length (take i a ++ v ++ drop (i + length v) a) = length a.
Proof.
  intros Hi. rewrite !length_app, length_take, length_drop. lia.
Qed.

(** A write at an index that is not negative, ending within the
    capacity: the chunk is assigned into the storage, in place. *)
Lemma write_data_in_capacity (SAMPLE_RATE : Z) h l a b t i :
  h !! l = Some a -> to_index SAMPLE_RATE t = Ok i ->
  0 <= i -> i + len b <= len a ->
  write_data SAMPLE_RATE b t (State h (Self (len a) (Some l)))
  = (State (<[l := take (Z.to_nat i) a ++ b
                   ++ drop (Z.to_nat i + length b) a]> h)
           (Self (len a) (Some l)), Ok tt).
Proof.
  intros Hl Hi Hi0 He.
  rewrite (write_data_fits SAMPLE_RATE _ _ _ _ _ _ _ Hl Hi He).
  rewrite npFacts.setitem_slice_inside by assumption. reflexivity.
Qed.

(** X2.  A write that ends within the capacity changes the samples of
    its range and nothing else: no array is allocated, capacity and
    storage stay the same object, the samples of the range are the
    chunk, and every other sample is as before. *)
Theorem write_data_in_place (SAMPLE_RATE : Z) (s : state) (a b : list float32) (t : float) (i : Z) :
  samples s = Some a -> len a = capacity (self s) ->
  to_index SAMPLE_RATE t = Ok i -> 0 <= i -> i + len b <= capacity (self s) ->
  exists s1 a1,
    write_data SAMPLE_RATE b t s = (s1, Ok tt) /\
    self s1 = self s /\ length (mem s1) = length (mem s) /\
    samples s1 = Some a1 /\ length a1 = length a /\
    forall j : nat,
      a1 !! j
      = if ((Z.to_nat i <=? j) && (j <? Z.to_nat i + length b))%nat
        then b !! (j - Z.to_nat i)%nat else a !! j.
Proof.
  intros Hs Hc Hi Hi0 He.
  destruct (samples_inv _ _ Hs) as (h & c & l & -> & Hl).
  cbn [self capacity mem] in *. subst c.
  rewrite (write_data_in_capacity SAMPLE_RATE _ _ _ _ _ _ Hl Hi Hi0 He).
  assert (Z.to_nat i + length b <= length a)%nat as Hin
    by (unfold len in *; lia).
  eexists _, _. split; [reflexivity|]. cbn [self mem].
  split; [reflexivity|]. split; [apply length_insert|].
  split; [|split].
  - rewrite samples_State. apply list_lookup_insert_eq.
    eapply lookup_lt_Some; eassumption.
  - apply splice_length. exact Hin.
  - intros j. apply splice_lookup. exact Hin.
Qed.

Lemma write_data_in_place_witness :
  exists s1 a1,
    write_data 100 (replicate 3 f32_one) (fdiv_int 5 10) Scenario.buf1
    = (s1, Ok tt) /\
    self s1 = self Scenario.buf1 /\ samples s1 = Some a1 /\
    a1 !! 49%nat = Some f32_zero /\ a1 !! 50%nat = Some f32_one /\
    a1 !! 52%nat = Some f32_one /\ a1 !! 53%nat = Some f32_zero.
Proof.
  destruct (write_data_in_place 100 Scenario.buf1 (replicate 100 f32_zero)
              (replicate 3 f32_one) (fdiv_int 5 10) 50)
    as (s1 & a1 & Hw & Hself & _ & Hs & _ & Hj);
    [vm_compute; reflexivity || discriminate ..|].
  exists s1, a1. split; [exact Hw|]. split; [exact Hself|].
  split; [exact Hs|]. rewrite !Hj. repeat split.
Defined.






(** ** Reads *)

Lemma read_data_state (SAMPLE_RATE : Z) (s : state) (ts te : float) :
  after (read_data SAMPLE_RATE ts te s) = s.
Proof.
  unfold read_data, bind, lift, after.
  destruct (to_index SAMPLE_RATE ts); [|reflexivity].
  destruct (to_index SAMPLE_RATE te); [|reflexivity].
  unfold get_data. destruct (data (self s)); reflexivity.
Qed.

(** X1.  A read never changes the buffer or any array, whether it
    returns or raises.  When it returns, the window lies within the
    array [self.data] refers to; when it raises, the exception is that
    of a time without index or the [AttributeError] of a buffer without
    storage. *)
Theorem read_data_never_writes (SAMPLE_RATE : Z) (s : state) (ts te : float) :
  after (read_data SAMPLE_RATE ts te s) = s /\
  match outcome (read_data SAMPLE_RATE ts te s) with
  | Ok v => exists i j a,
      to_index SAMPLE_RATE ts = Ok i /\ to_index SAMPLE_RATE te = Ok j /\
      data (self s) = Some (base v) /\
      a = deref (mem s) (base v) /\ (offset v + size v <= length a)%nat
  | Raise e =>
      to_index SAMPLE_RATE ts = Raise e \/ to_index SAMPLE_RATE te = Raise e \/
      (e = AttributeError /\ data (self s) = None)
  end.
Proof.
  split; [apply read_data_state|].
  unfold read_data, bind, lift, outcome.
  destruct (to_index SAMPLE_RATE ts) as [i|e] eqn:Hi.
  2:{ cbn [snd]. auto. }
  destruct (to_index SAMPLE_RATE te) as [j|e] eqn:Hj.
  2:{ cbn [snd]. auto. }
  unfold get_data. destruct (data (self s)) as [l|] eqn:Hd; cbn [snd]; [|auto].
  exists i, j, (deref (mem s) l). cbn [base offset size].
  repeat split; try reflexivity.
  unfold slice_lo, slice_len.
  pose proof (npFacts.len_nonneg (deref (mem s) l)) as Ha.
  pose proof (npFacts.adjust_range _ i Ha).
  pose proof (npFacts.adjust_range _ j Ha).
  unfold len in *. lia.
Qed.

(** X5.  Windows that follow each other tile the buffer: for indices
    [0 <= i <= j <= k], the samples read from [i] to [j] followed by
    those read from [j] to [k] are the samples read from [i] to [k],
    also where the windows run past the capacity. *)
Theorem read_data_adjacent_windows (SAMPLE_RATE : Z) (s : state)
    (a : list float32) (t1 t2 t3 : float) (i j k : Z) :
  samples s = Some a ->
  to_index SAMPLE_RATE t1 = Ok i -> to_index SAMPLE_RATE t2 = Ok j ->
  to_index SAMPLE_RATE t3 = Ok k ->
  0 <= i <= j -> j <= k ->
  exists v12 v23 v13,
    read_data SAMPLE_RATE t1 t2 s = (s, Ok v12) /\
    read_data SAMPLE_RATE t2 t3 s = (s, Ok v23) /\
    read_data SAMPLE_RATE t1 t3 s = (s, Ok v13) /\
    view_get (mem s) v12 ++ view_get (mem s) v23 = view_get (mem s) v13.
Proof.
  intros Hs Hi Hj Hk Hij Hjk.
  destruct (samples_inv _ _ Hs) as (h & c & l & -> & Hl).
  rewrite (read_data_view SAMPLE_RATE _ _ _ _ _ _ _ _ Hl Hi Hj).
  rewrite (read_data_view SAMPLE_RATE _ _ _ _ _ _ _ _ Hl Hj Hk).
  rewrite (read_data_view SAMPLE_RATE _ _ _ _ _ _ _ _ Hl Hi Hk).
  eexists _, _, _. repeat (split; [reflexivity|]).
  unfold view_get. cbn [mem base offset size].
  rewrite (deref_lookup _ _ _ Hl).
  unfold slice_lo, slice_len. rewrite !npFacts.adjust_nonneg by lia.
  pose proof (npFacts.len_nonneg a) as Ha.
  set (n := len a) in *.
  replace (drop (Z.to_nat (Z.min j n)) a)
    with (drop (Z.to_nat (Z.min j n - Z.min i n)) (drop (Z.to_nat (Z.min i n)) a))
    by (rewrite drop_drop; f_equal; lia).
  rewrite take_take_drop. f_equal. lia.
Qed.

Lemma read_data_adjacent_windows_witness :
  exists v12 v23 v13,
    read_data 100 (fdiv_int 49 100) (fdiv_int 51 100) Scenario.buf2
    = (Scenario.buf2, Ok v12) /\
    read_data 100 (fdiv_int 51 100) (fdiv_int 2 1) Scenario.buf2
    = (Scenario.buf2, Ok v23) /\
    read_data 100 (fdiv_int 49 100) (fdiv_int 2 1) Scenario.buf2
    = (Scenario.buf2, Ok v13) /\
    view_get (mem Scenario.buf2) v12 ++ view_get (mem Scenario.buf2) v23
    = view_get (mem Scenario.buf2) v13.
Proof.
  apply (read_data_adjacent_windows 100 Scenario.buf2
           (replicate 50 f32_zero ++ replicate 3 f32_one
            ++ replicate 47 f32_zero)
           (fdiv_int 49 100) (fdiv_int 51 100) (fdiv_int 2 1) 49 51 200);
    vm_compute; (reflexivity || (split; discriminate) || discriminate).
Defined.

(** X14.  A read at negative times counts from the end of the storage,
    like a slice with negative bounds: for
    [-capacity <= start_index <= end_index < 0] it returns the samples
    from [capacity + start_index] up to [capacity + end_index]. *)
Theorem read_data_from_end (SAMPLE_RATE : Z) (s : state) (a : list float32)
    (ts te : float) (i j : Z) :
  samples s = Some a ->
  to_index SAMPLE_RATE ts = Ok i -> to_index SAMPLE_RATE te = Ok j ->
  - len a <= i -> i <= j -> j < 0 ->
  exists v,
    read_data SAMPLE_RATE ts te s = (s, Ok v) /\
    view_get (mem s) v
    = take (Z.to_nat (j - i)) (drop (Z.to_nat (len a + i)) a).
Proof.
  intros Hs Hi Hj Hlo Hij Hj0.
  destruct (samples_inv _ _ Hs) as (h & c & l & -> & Hl).
  rewrite (read_data_view SAMPLE_RATE _ _ _ _ _ _ _ _ Hl Hi Hj).
  eexists. split; [reflexivity|].
  unfold view_get. cbn [mem base offset size].
  rewrite (deref_lookup _ _ _ Hl).
  unfold slice_lo, slice_len, adjust.
  destruct (Z.ltb_spec i 0); [|lia]. destruct (Z.ltb_spec j 0); [|lia].
  rewrite !Z.max_r by lia. f_equal; [lia | f_equal; lia].
Qed.

Lemma read_data_from_end_witness :
  exists v,
    read_data 100 (fdiv_int (-5) 10) (fdiv_int (-46) 100) Scenario.buf2
    = (Scenario.buf2, Ok v) /\
    view_get (mem Scenario.buf2) v
    = [f32_one; f32_one; f32_one; f32_zero].
Proof.
  apply (read_data_from_end 100 Scenario.buf2
           (replicate 50 f32_zero ++ replicate 3 f32_one
            ++ replicate 47 f32_zero)
           (fdiv_int (-5) 10) (fdiv_int (-46) 100) (-50) (-46));
    vm_compute; reflexivity || discriminate.
Defined.

(** ** Times without an index, and buffers without storage *)

(** X6.  When [float(SAMPLE_RATE)] is a finite double other than zero,
    a write or a read at the time [nan] raises [ValueError] and one at
    an infinite time raises [OverflowError], as [int()] does, for the
    start time of a write or a read and for the end time of a read whose
    start time has an index; the buffer is left as it was.  (At rate 0
    the product [inf * 0.0] is [nan].) *)
Theorem nan_and_infinite_times_raise (SAMPLE_RATE : Z) (sr : bool)
    (m : positive) (e : Z) (s : state) (b : list float32) :
  float_of_int SAMPLE_RATE = Ok (S754_finite sr m e) ->
  write_data SAMPLE_RATE b S754_nan s = (s, Raise ValueError) /\
  (forall sg, write_data SAMPLE_RATE b (S754_infinity sg) s
              = (s, Raise OverflowError)) /\
  (forall te, read_data SAMPLE_RATE S754_nan te s = (s, Raise ValueError)) /\
  (forall sg te, read_data SAMPLE_RATE (S754_infinity sg) te s
                 = (s, Raise OverflowError)) /\
  (forall ts i, to_index SAMPLE_RATE ts = Ok i ->
     read_data SAMPLE_RATE ts S754_nan s = (s, Raise ValueError) /\
     forall sg, read_data SAMPLE_RATE ts (S754_infinity sg) s
                = (s, Raise OverflowError)).
Proof.
  intros Hr.
  assert (to_index SAMPLE_RATE S754_nan = Raise ValueError) as Hnan
    by (unfold to_index, fmul_int; rewrite Hr; reflexivity).
  assert (forall sg, to_index SAMPLE_RATE (S754_infinity sg) = Raise OverflowError)
    as Hinf by (intros sg; unfold to_index, fmul_int; rewrite Hr; reflexivity).
  split; [apply write_data_no_index; exact Hnan|].
  split; [intros sg; apply write_data_no_index; apply Hinf|].
  split; [intros te; unfold read_data, bind, lift; rewrite Hnan; reflexivity|].
  split; [intros sg te; unfold read_data, bind, lift; rewrite Hinf; reflexivity|].
  intros ts i Hi. split; [|intros sg]; unfold read_data, bind, lift;
    rewrite Hi, ?Hnan, ?Hinf; reflexivity.
Qed.

Lemma nan_and_infinite_times_raise_witness :
  write_data 100 [f32_one] S754_nan Scenario.buf1
  = (Scenario.buf1, Raise ValueError) /\
  (forall sg, write_data 100 [f32_one] (S754_infinity sg) Scenario.buf1
              = (Scenario.buf1, Raise OverflowError)) /\
  (forall te, read_data 100 S754_nan te Scenario.buf1
              = (Scenario.buf1, Raise ValueError)) /\
  (forall sg te, read_data 100 (S754_infinity sg) te Scenario.buf1
                 = (Scenario.buf1, Raise OverflowError)) /\
  (forall ts i, to_index 100 ts = Ok i ->
     read_data 100 ts S754_nan Scenario.buf1 = (Scenario.buf1, Raise ValueError) /\
     forall sg, read_data 100 ts (S754_infinity sg) Scenario.buf1
                = (Scenario.buf1, Raise OverflowError)).
Proof.
  apply (nan_and_infinite_times_raise 100 false 7036874417766400 (-46)
           Scenario.buf1 [f32_one]).
  vm_compute. reflexivity.
Defined.

(** X13.  On a buffer without storage every write whose time has an
    index raises [AttributeError]; no array is touched and the buffer
    still has no storage, but a write that ends past the capacity has
    doubled the capacity before it raised. *)
Theorem write_data_without_storage (SAMPLE_RATE : Z) (s : state)
    (b : list float32) (t : float) (i : Z) :
  data (self s) = None -> to_index SAMPLE_RATE t = Ok i ->
  let r := write_data SAMPLE_RATE b t s in
  outcome r = Raise AttributeError /\
  mem (after r) = mem s /\ data (self (after r)) = None /\
  capacity (self (after r))
  = if i + len b >? capacity (self s)
    then capacity (self s) * 2 else capacity (self s).
Proof.
  intros Hd Hi. destruct s as [h [c d]]. cbn [self data capacity mem] in *.
  subst d. rewrite (write_data_no_storage SAMPLE_RATE _ _ _ _ _ Hi).
  cbv zeta. repeat split.
Qed.

Lemma write_data_without_storage_witness :
  let r := write_data 100 [f32_one] (fdiv_int 100 1) Scenario.buf_default in
  outcome r = Raise AttributeError /\
  capacity (self Scenario.buf_default) = 6000 /\
  capacity (self (after r)) = 12000.
Proof.
  destruct (write_data_without_storage 100 Scenario.buf_default [f32_one]
              (fdiv_int 100 1) 10000) as (Ho & _ & _ & Hc);
    [vm_compute; reflexivity ..|].
  split; [exact Ho|]. split; [reflexivity | exact Hc].
Defined.

(** ** Construction *)

(** X7.  Construction from a duration whose index is negative fails
    with the [ValueError] of [np.zeros], whatever the audio file; no
    array is allocated. *)
Theorem new_negative_duration (SAMPLE_RATE : Z) (h : heap) (d : float)
    (c : Z) (audio_filepath : option (result (list float32))) :
  to_index SAMPLE_RATE d = Ok c -> c < 0 ->
  outcome (new SAMPLE_RATE h (Some d) audio_filepath) = Raise ValueError /\
  mem (after (new SAMPLE_RATE h (Some d) audio_filepath)) = h.
Proof.
  intros Hc Hneg. unfold new, __init__, bind, lift. rewrite Hc.
  cbn [set_capacity get_capacity self capacity mem data].
  unfold zeros. destruct (Z.ltb_spec c 0); [|lia]. split; reflexivity.
Qed.

Lemma new_negative_duration_witness :
  outcome (new 100 [] (Some (fdiv_int (-1) 1)) None) = Raise ValueError /\
  mem (after (new 100 [] (Some (fdiv_int (-1) 1)) None)) = [].
Proof.
  apply (new_negative_duration 100 [] (fdiv_int (-1) 1) (-100) None);
    vm_compute; reflexivity.
Defined.

(** X9.  Construction with an audio file, with no duration or with one
    whose index is not negative: the buffer holds exactly the decoded
    samples and its capacity is their number, whatever the duration
    was; if the loader raises, construction raises the same
    exception. *)
Theorem new_with_audio (SAMPLE_RATE : Z) (h : heap) (MidiData : option float) :
  match MidiData with
  | Some d => exists c, to_index SAMPLE_RATE d = Ok c /\ 0 <= c
  | None => True
  end ->
  (forall a, let r := new SAMPLE_RATE h MidiData (Some (Ok a)) in
     outcome r = Ok tt /\ samples (after r) = Some a /\
     capacity (self (after r)) = len a /\ storage_ok (after r) = true) /\
  (forall e, outcome (new SAMPLE_RATE h MidiData (Some (Raise e))) = Raise e).
Proof.
  intros Hm.
  assert (exists s0, forall r,
            new SAMPLE_RATE h MidiData (Some r) = load_data r s0) as [s0 Hnew].
  { destruct MidiData as [d|].
    - destruct Hm as (c & Hc & Hc0). eexists. intros r.
      unfold new, __init__, bind, lift. rewrite Hc.
      cbn [set_capacity get_capacity self capacity mem data].
      unfold zeros. destruct (Z.ltb_spec c 0); [lia|]. reflexivity.
    - eexists. intros r. reflexivity. }
  split.
  - intros a. cbv zeta. rewrite Hnew, load_data_ok.
    unfold after, outcome. cbn [fst snd self capacity].
    split; [reflexivity|]. split; [|split; [reflexivity|]].
    + rewrite samples_State. apply deref_lookup_alloc.
    + apply storage_ok_State with a; [apply deref_lookup_alloc | reflexivity].
  - intros e. rewrite Hnew, load_data_raises. reflexivity.
Qed.

Lemma new_with_audio_witness :
  (forall a, let r := new 100 [] (Some (fdiv_int 1 1)) (Some (Ok a)) in
     outcome r = Ok tt /\ samples (after r) = Some a /\
     capacity (self (after r)) = len a /\ storage_ok (after r) = true) /\
  (forall e, outcome (new 100 [] (Some (fdiv_int 1 1)) (Some (Raise e))) = Raise e).
Proof.
  apply (new_with_audio 100 [] (Some (fdiv_int 1 1))).
  exists 100. split; [vm_compute; reflexivity | lia].
Defined.

(** X8.  What the record tab does, [AudioData()] followed by
    [load_data(path)], is what the constructor does when it is given the
    path: after a load that succeeds the buffer holds the decoded
    samples, and after one that raises it has no storage. *)
Theorem init_user_audio_as_constructor (SAMPLE_RATE : Z) (h : heap)
    (loader : result (list float32)) :
  RecordTab.init_user_audio SAMPLE_RATE h loader
  = new SAMPLE_RATE h None (Some loader) /\
  match loader with
  | Ok a =>
      outcome (RecordTab.init_user_audio SAMPLE_RATE h loader) = Ok tt /\
      samples (after (RecordTab.init_user_audio SAMPLE_RATE h loader)) = Some a /\
      capacity (self (after (RecordTab.init_user_audio SAMPLE_RATE h loader)))
      = len a
  | Raise e =>
      outcome (RecordTab.init_user_audio SAMPLE_RATE h loader) = Raise e /\
      samples (after (RecordTab.init_user_audio SAMPLE_RATE h loader)) = None
  end.
Proof.
  split; [reflexivity|]. destruct loader as [a|e].
  - split; [reflexivity|]. split; [|reflexivity].
    unfold RecordTab.init_user_audio, new, __init__, bind, set_capacity, ret.
    cbn [self mem data capacity]. rewrite load_data_ok.
    unfold after. cbn [fst mem]. rewrite samples_State.
    apply deref_lookup_alloc.
  - split; reflexivity.
Qed.

(** ** Calls in sequence *)

Lemma exec_storage_ok (SAMPLE_RATE : Z) (s : state) (c : call) :
  storage_ok s = true -> storage_ok (exec SAMPLE_RATE s c) = true.
Proof.
  intros Hs. destruct c as [b t|ts te|[a|e]]; cbn [exec].
  - apply write_data_storage_ok. exact Hs.
  - rewrite read_data_state. exact Hs.
  - apply load_data_storage_ok.
  - rewrite load_data_raises. exact Hs.
Qed.

Lemma exec_capacity (SAMPLE_RATE : Z) (s : state) (c : call) :
  is_load c = false ->
  capacity (self (exec SAMPLE_RATE s c)) = capacity (self s) \/
  capacity (self (exec SAMPLE_RATE s c)) = capacity (self s) * 2.
Proof.
  destruct c as [b t|ts te|r]; cbn [exec is_load]; intros Hc.
  - apply write_data_capacity.
  - rewrite read_data_state. left. reflexivity.
  - discriminate.
Qed.

(** X10.  As long as [np.resize] and the loader get the memory for
    their arrays (running out of memory is outside this model), a buffer
    that has a storage of [capacity] samples still has one after any
    sequence of writes, reads and loads, also when some of them raise
    for their time ([ValueError], [OverflowError]), for the shape of
    their chunk ([ValueError]) or because the loader fails. *)
Theorem run_keeps_storage (SAMPLE_RATE : Z) (cs : list call) (s : state) :
  storage_ok s = true -> storage_ok (run SAMPLE_RATE cs s) = true.
Proof.
  revert s. induction cs as [|c cs IH]; intros s Hs; [exact Hs|].
  apply IH, exec_storage_ok, Hs.
Qed.

Lemma run_keeps_storage_witness :
  storage_ok
    (run 100 [Write (replicate 20 f32_two) (fdiv_int 3 1);
              Read fzero (fdiv_int 1 1);
              Load (Raise RuntimeError);
              Write [] (fdiv_int 9 1);
              Load (Ok [f32_one]);
              Write [f32_two; f32_two] S754_nan] Scenario.buf1) = true.
Proof.
  apply (run_keeps_storage 100). vm_compute. reflexivity.
Defined.

(** X11.  Without a load the capacity only ever doubles: after any
    sequence of writes and reads it is the capacity at the start times
    a power of two, with at most one doubling for each call. *)
Theorem run_scales_capacity (SAMPLE_RATE : Z) (cs : list call) (s : state) :
  forallb (fun c => negb (is_load c)) cs = true ->
  exists k : nat,
    (k <= length cs)%nat /\
    capacity (self (run SAMPLE_RATE cs s)) = capacity (self s) * 2 ^ Z.of_nat k.
Proof.
  revert s. induction cs as [|c cs IH]; intros s Hcs.
  - exists 0%nat. split; [lia|]. simpl. lia.
  - cbn [forallb] in Hcs. apply andb_prop in Hcs as [Hc Hcs].
    apply negb_true_iff in Hc.
    destruct (IH (exec SAMPLE_RATE s c) Hcs) as (k & Hk & E).
    cbn [run foldl] in *. fold (run SAMPLE_RATE cs (exec SAMPLE_RATE s c)) in E.
    destruct (exec_capacity SAMPLE_RATE s c Hc) as [E1|E1]; rewrite E1 in E.
    + exists k. split; [simpl; lia | exact E].
    + exists (S k). split; [simpl; lia|].
      fold (run SAMPLE_RATE cs (exec SAMPLE_RATE s c)). rewrite E.
      rewrite Nat2Z.inj_succ, Z.pow_succ_r by lia. lia.
Qed.

Lemma run_scales_capacity_witness :
  exists k : nat,
    (k <= 3)%nat /\
    capacity (self (run 100 [Write (replicate 20 f32_two) (fdiv_int 95 100);
                             Read fzero (fdiv_int 3 1);
                             Write [f32_one] (fdiv_int 3 1)] Scenario.buf1))
    = 100 * 2 ^ Z.of_nat k.
Proof.
  apply (run_scales_capacity 100
           [Write (replicate 20 f32_two) (fdiv_int 95 100);
            Read fzero (fdiv_int 3 1);
            Write [f32_one] (fdiv_int 3 1)] Scenario.buf1).
  vm_compute. reflexivity.
Defined.

(** X15.  A buffer of capacity zero never grows: twice zero is zero, so
    after any sequence of writes and reads its capacity is still zero
    and it holds no sample. *)
Theorem zero_capacity_never_grows (SAMPLE_RATE : Z) (cs : list call) (s : state) :
  storage_ok s = true -> capacity (self s) = 0 ->
  forallb (fun c => negb (is_load c)) cs = true ->
  capacity (self (run SAMPLE_RATE cs s)) = 0 /\
  samples (run SAMPLE_RATE cs s) = Some [].
Proof.
  revert s. induction cs as [|c cs IH]; intros s Hs Hc Hcs.
  - split; [exact Hc|].
    destruct (storage_ok_inv _ Hs) as (h & l & a & -> & Hl).
    cbn [self capacity] in Hc. unfold run. cbn [foldl].
    rewrite samples_State, Hl.
    destruct a; [reflexivity | discriminate Hc].
  - cbn [forallb] in Hcs. apply andb_prop in Hcs as [Hc' Hcs].
    apply negb_true_iff in Hc'.
    apply (IH (exec SAMPLE_RATE s c)).
    + apply exec_storage_ok, Hs.
    + destruct (exec_capacity SAMPLE_RATE s c Hc') as [E|E]; rewrite E; lia.
    + exact Hcs.
Qed.

Lemma zero_capacity_never_grows_witness :
  let s := after (new 100 [] (Some fzero) None) in
  let cs := [Write [f32_one] fzero; Write [f32_one; f32_two] fzero;
             Read fzero (fdiv_int 1 1)] in
  capacity (self (run 100 cs s)) = 0 /\ samples (run 100 cs s) = Some [].
Proof.
  apply (zero_capacity_never_grows 100); vm_compute; reflexivity.
Defined.

(** What a write leaves alone: an array that is not the storage of the
    buffer is unchanged, stays in the heap, and does not become the
    storage. *)
Lemma write_data_frame (SAMPLE_RATE : Z) (s : state)
    (b : list float32) (t : float) (l' : nat) :
  (l' < length (mem s))%nat -> data (self s) <> Some l' ->
  mem (after (write_data SAMPLE_RATE b t s)) !! l' = mem s !! l' /\
  (length (mem s) <= length (mem (after (write_data SAMPLE_RATE b t s))))%nat /\
  data (self (after (write_data SAMPLE_RATE b t s))) <> Some l'.
Proof.
  intros Hl' Hd. destruct s as [h [c d]]. cbn [mem self data] in *.
  destruct (to_index SAMPLE_RATE t) as [i|e] eqn:Hi.
  2:{ rewrite (write_data_no_index _ _ _ _ _ Hi).
      split; [reflexivity | split; [cbn; lia | exact Hd]]. }
  destruct d as [l|].
  2:{ rewrite (write_data_no_storage _ _ _ _ _ _ Hi).
      split; [reflexivity | split; [cbn; lia | exact Hd]]. }
  assert (l <> l') as Hne by congruence.
  assert (Some (length h) <> Some l') as Hfresh
    by (intros E; injection E as E; lia).
  unfold write_data, bind, lift, get_capacity. rewrite Hi.
  cbn [self capacity mem data].
  destruct (i + len b >? c).
  - unfold set_capacity, get_data, load, alloc, set_data, store.
    cbn [self capacity mem data].
    destruct (resize _ _) as [a1|e];
      [|split; [reflexivity | split; [cbn; lia | exact Hd]]].
    cbn [self capacity mem data].
    destruct (setitem_slice _ _ _ _) as [a'|e]; unfold after;
      cbn [fst mem self data].
    + rewrite length_insert, length_app. split; [|split; [lia | exact Hfresh]].
      rewrite list_lookup_insert_ne by lia. apply lookup_app_l. exact Hl'.
    + rewrite length_app. split; [|split; [lia | exact Hfresh]].
      apply lookup_app_l. exact Hl'.
  - unfold ret, get_data, load, store. cbn [self capacity mem data].
    destruct (setitem_slice _ _ _ _) as [a'|e]; unfold after;
      cbn [fst mem self data].
    + rewrite length_insert. split; [|split; [lia | exact Hd]].
      apply list_lookup_insert_ne. exact Hne.
    + split; [reflexivity | split; [lia | exact Hd]].
Qed.

(** X12.  A write touches no array but the storage of the buffer:
    every other array of the heap is as before, and no array ever
    leaves the heap. *)
Theorem write_data_touches_only_storage (SAMPLE_RATE : Z) (s : state)
    (b : list float32) (t : float) (l' : nat) :
  (l' < length (mem s))%nat -> data (self s) <> Some l' ->
  mem (after (write_data SAMPLE_RATE b t s)) !! l' = mem s !! l' /\
  (length (mem s) <= length (mem (after (write_data SAMPLE_RATE b t s))))%nat.
Proof.
  intros Hl' Hd.
  destruct (write_data_frame SAMPLE_RATE s b t l' Hl' Hd) as (H1 & H2 & _).
  split; assumption.
Qed.

Lemma write_data_touches_only_storage_witness :
  mem (after (write_data 100 (replicate 3 f32_one) (fdiv_int 5 10) Scenario.buf4))
    !! 0%nat
  = mem Scenario.buf4 !! 0%nat /\
  (length (mem Scenario.buf4)
   <= length (mem (after (write_data 100 (replicate 3 f32_one) (fdiv_int 5 10)
                            Scenario.buf4))))%nat.
Proof.
  apply (write_data_touches_only_storage 100 Scenario.buf4
           (replicate 3 f32_one) (fdiv_int 5 10) 0%nat).
  - vm_compute. lia.
  - vm_compute. discriminate.
Defined.

(** ** The playback controls of the record tab *)

Lemma handle_labels_agree (t : RecordTab.tab) (e : RecordTab.ui_event) :
  RecordTab.labels_agree t -> RecordTab.labels_agree (RecordTab.handle t e).
Proof.
  unfold RecordTab.labels_agree. intros [Hm Hu].
  destruct e as [now|now|value maximum now]; cbn [RecordTab.handle].
  - unfold RecordTab.toggle_midi.
    destruct (RecordTab.is_midi_playing t); cbn; auto.
  - unfold RecordTab.toggle_user_playback.
    destruct (RecordTab.is_user_playing t); cbn; auto.
  - unfold RecordTab.handle_slider_change.
    destruct (value =? maximum); cbn; auto.
Qed.

(** X16.  Whatever the user clicks and wherever the slider goes, each
    button of the record tab shows the action a click on it will take:
    "Pause ..." exactly while its flag says the playback is on,
    "Play ..." otherwise. *)
Theorem labels_agree_always (es : list RecordTab.ui_event) :
  RecordTab.labels_agree (foldl RecordTab.handle RecordTab.initial es).
Proof.
  assert (forall t, RecordTab.labels_agree t ->
                    RecordTab.labels_agree (foldl RecordTab.handle t es)) as H.
  { induction es as [|e es IH]; intros t Ht; [exact Ht|].
    apply IH, handle_labels_agree, Ht. }
  apply H. split; reflexivity.
Qed.

Lemma midi_told_to_play_app (cs cs' : list RecordTab.command) (told : bool) :
  RecordTab.midi_told_to_play (cs ++ cs') told
  = RecordTab.midi_told_to_play cs' (RecordTab.midi_told_to_play cs told).
Proof.
  revert told. induction cs as [|c cs IH]; intros told; [reflexivity|].
  destruct c; simpl; apply IH.
Qed.

Lemma audio_told_to_play_app (cs cs' : list RecordTab.command) (told : bool) :
  RecordTab.audio_told_to_play (cs ++ cs') told
  = RecordTab.audio_told_to_play cs' (RecordTab.audio_told_to_play cs told).
Proof.
  revert told. induction cs as [|c cs IH]; intros told; [reflexivity|].
  destruct c; simpl; apply IH.
Qed.

(** X17.  The flags of the record tab follow what the players were
    told: after any sequence of clicks and slider changes,
    [is_midi_playing] is true exactly when the last call to the MIDI
    player was [play], and [is_user_playing] exactly when the last call
    to the audio player was [play]. *)
Theorem flags_follow_players (es : list RecordTab.ui_event) :
  let t := foldl RecordTab.handle RecordTab.initial es in
  RecordTab.is_midi_playing t
  = RecordTab.midi_told_to_play (RecordTab.calls t) false /\
  RecordTab.is_user_playing t
  = RecordTab.audio_told_to_play (RecordTab.calls t) false.
Proof.
  cbv zeta.
  assert (forall t,
            RecordTab.is_midi_playing t
            = RecordTab.midi_told_to_play (RecordTab.calls t) false /\
            RecordTab.is_user_playing t
            = RecordTab.audio_told_to_play (RecordTab.calls t) false ->
            let t' := foldl RecordTab.handle t es in
            RecordTab.is_midi_playing t'
            = RecordTab.midi_told_to_play (RecordTab.calls t') false /\
            RecordTab.is_user_playing t'
            = RecordTab.audio_told_to_play (RecordTab.calls t') false) as H.
  { induction es as [|e es IH]; intros t Ht; [exact Ht|].
    apply IH. destruct Ht as [Hm Hu].
    destruct e as [now|now|value maximum now]; cbn [RecordTab.handle].
    - unfold RecordTab.toggle_midi.
      destruct (RecordTab.is_midi_playing t); cbn [RecordTab.is_midi_playing
        RecordTab.is_user_playing RecordTab.calls];
        rewrite midi_told_to_play_app, audio_told_to_play_app; simpl; auto.
    - unfold RecordTab.toggle_user_playback.
      destruct (RecordTab.is_user_playing t); cbn [RecordTab.is_midi_playing
        RecordTab.is_user_playing RecordTab.calls];
        rewrite midi_told_to_play_app, audio_told_to_play_app; simpl; auto.
    - unfold RecordTab.handle_slider_change.
      destruct (value =? maximum); cbn [RecordTab.is_midi_playing
        RecordTab.is_user_playing RecordTab.calls];
        rewrite ?midi_told_to_play_app, ?audio_told_to_play_app; simpl; auto. }
  apply H. split; reflexivity.
Qed.

(** X18.  Two clicks on the same button bring the tab back: its flags
    are as before, and so are the texts of its buttons when they agreed
    with the flags. *)
Theorem toggle_twice (now1 now2 : float) (t : RecordTab.tab) :
  RecordTab.labels_agree t ->
  let same (t' : RecordTab.tab) :=
    RecordTab.is_midi_playing t' = RecordTab.is_midi_playing t /\
    RecordTab.is_user_playing t' = RecordTab.is_user_playing t /\
    RecordTab.midi_play_button t' = RecordTab.midi_play_button t /\
    RecordTab.user_play_button t' = RecordTab.user_play_button t in
  same (RecordTab.toggle_midi now2 (RecordTab.toggle_midi now1 t)) /\
  same (RecordTab.toggle_user_playback now2
          (RecordTab.toggle_user_playback now1 t)).
Proof.
  intros [Hm Hu]. cbv zeta.
  unfold RecordTab.toggle_midi, RecordTab.toggle_user_playback.
  destruct t as [m u bm bu cs]. cbn in Hm, Hu. subst bm bu.
  destruct m, u; cbn; repeat split.
Qed.

Lemma toggle_twice_witness :
  RecordTab.is_midi_playing
    (RecordTab.toggle_midi (fdiv_int 2 1)
       (RecordTab.toggle_midi (fdiv_int 1 1) RecordTab.initial)) = false /\
  RecordTab.midi_play_button
    (RecordTab.toggle_midi (fdiv_int 2 1)
       (RecordTab.toggle_midi (fdiv_int 1 1) RecordTab.initial))
  = "Play MIDI"%string.
Proof.
  destruct (toggle_twice (fdiv_int 1 1) (fdiv_int 2 1) RecordTab.initial)
    as [(Hm & _ & Hb & _) _]; [split; reflexivity|].
  split; [exact Hm | exact Hb].
Defined.

(** ** Slices held across growth, and writes across time zero *)

Lemma exec_frame (SAMPLE_RATE : Z) (s : state) (c : call) (l' : nat) :
  (l' < length (mem s))%nat -> data (self s) <> Some l' ->
  mem (exec SAMPLE_RATE s c) !! l' = mem s !! l' /\
  (l' < length (mem (exec SAMPLE_RATE s c)))%nat /\
  data (self (exec SAMPLE_RATE s c)) <> Some l'.
Proof.
  intros Hl' Hd. destruct c as [b t|ts te|[a|e]]; cbn [exec].
  - destruct (write_data_frame SAMPLE_RATE s b t l' Hl' Hd) as (H1 & H2 & H3).
    split; [exact H1 | split; [lia | exact H3]].
  - rewrite read_data_state. auto.
  - rewrite load_data_ok. unfold after. cbn [fst mem self data].
    rewrite length_app. split; [apply lookup_app_l; exact Hl'|].
    split; [lia|]. intros E. injection E as E. lia.
  - rewrite load_data_raises. auto.
Qed.

(** X19.  A slice of an array that is no longer the storage of the
    buffer, as is every slice read before the buffer grew or was
    loaded anew, never changes again: after any sequence of writes,
    reads and loads it shows the samples it showed. *)
Theorem detached_view_is_frozen (SAMPLE_RATE : Z) (cs : list call)
    (s : state) (v : view) :
  (base v < length (mem s))%nat -> data (self s) <> Some (base v) ->
  view_get (mem (run SAMPLE_RATE cs s)) v = view_get (mem s) v.
Proof.
  revert s. induction cs as [|c cs IH]; intros s Hl Hd; [reflexivity|].
  destruct (exec_frame SAMPLE_RATE s c (base v) Hl Hd) as (H1 & H2 & H3).
  unfold run. cbn [foldl]. fold (run SAMPLE_RATE cs (exec SAMPLE_RATE s c)).
  rewrite (IH _ H2 H3). unfold view_get, deref. rewrite H1. reflexivity.
Qed.

Lemma detached_view_is_frozen_witness :
  view_get
    (mem (run 100 [Write (replicate 10 f32_two) (fdiv_int 5 10);
                   Load (Ok [f32_one])] Scenario.buf4))
    (View 0 50 3)
  = [f32_one; f32_one; f32_one].
Proof.
  apply (detached_view_is_frozen 100
           [Write (replicate 10 f32_two) (fdiv_int 5 10); Load (Ok [f32_one])]
           Scenario.buf4 (View 0 50 3)).
  - vm_compute. lia.
  - vm_compute. discriminate.
Defined.

(** X20.  A chunk written at a negative index that reaches or crosses
    index 0 is never stored: the slice it is assigned to ends where the
    storage begins, so a chunk of several samples raises [ValueError]
    and a chunk of one sample is dropped; the buffer is unchanged. *)
Theorem write_data_across_zero (SAMPLE_RATE : Z) (s : state)
    (a b : list float32) (t : float) (i : Z) :
  samples s = Some a -> len a = capacity (self s) ->
  to_index SAMPLE_RATE t = Ok i ->
  - capacity (self s) <= i -> i < 0 -> 0 <= i + len b <= capacity (self s) ->
  write_data SAMPLE_RATE b t s
  = (s, if len b <=? 1 then Ok tt else Raise ValueError).
Proof.
  intros Hs Hc Hi Hlo Hneg [He0 He].
  destruct (samples_inv _ _ Hs) as (h & c & l & -> & Hl).
  cbn [self capacity] in *. subst c.
  rewrite (write_data_fits SAMPLE_RATE _ _ _ _ _ _ _ Hl Hi He).
  assert (setitem_slice a i (i + len b) b
          = if len b <=? 1 then Ok a else Raise ValueError) as ->.
  { unfold setitem_slice, slice_lo, slice_len, adjust.
    destruct (Z.ltb_spec i 0); [|lia].
    destruct (Z.ltb_spec (i + len b) 0); [lia|].
    rewrite Z.max_r, Z.min_l by lia.
    destruct b as [|x [|y b]].
    - unfold len in He0 at 1. simpl in He0. lia.
    - pose proof (eq_refl : len [x] = 1) as E1.
      replace (Z.to_nat (i + len [x] - (i + len a))) with 0%nat by lia.
      simpl. rewrite Nat.add_0_r, take_drop. reflexivity.
    - pose proof (eq_refl : len (x :: y :: b) = Z.of_nat (S (S (length b)))) as E2.
      destruct (Nat.eqb_spec (length (x :: y :: b))
                  (Z.to_nat (i + len (x :: y :: b) - (i + len a)))) as [E|E].
      + simpl length in E. lia.
      + destruct (Z.leb_spec (len (x :: y :: b)) 1); [lia | reflexivity]. }
  destruct (len b <=? 1); [|reflexivity].
  rewrite list_insert_id by exact Hl. reflexivity.
Qed.

Lemma write_data_across_zero_witness :
  write_data 100 (replicate 3 f32_one) (fdiv_int (-2) 100) Scenario.buf1
  = (Scenario.buf1, Raise ValueError).
Proof.
  apply (write_data_across_zero 100 Scenario.buf1 (replicate 100 f32_zero)
           (replicate 3 f32_one) (fdiv_int (-2) 100) (-2));
    vm_compute; (reflexivity || (split; discriminate) || discriminate).
Defined.
